(** * ExoticDexFHE: a shallow embedding of contracts/Exotic_DEX.sol

    The contract is a confidential price-oracle aggregator.  Its storage
    becomes a record, every public function becomes a computation in a
    state-and-revert monad, and a transaction is a run of such a
    computation whose storage writes are discarded when it reverts.

    Solidity 0.8 arithmetic is checked: an overflowing [+] or [++] on
    [uint256] reverts with [Panic(0x11)].  Mappings are total: a key that
    was never written reads as the zero value of its type. *)

From Stdlib Require Import ZArith List Bool Lia.
From Stdlib.Strings Require Import Byte.
From stdpp Require Import base option gmap strings.
Import ListNotations.

#[local] Open Scope Z_scope.

(** ** Value types *)

Abbreviation address := Z (only parsing).
Abbreviation uint256 := Z (only parsing).
Abbreviation bytes32 := Z (only parsing).
Abbreviation bytes := (list byte) (only parsing).

Definition MAX_UINT256 : Z := 2 ^ 256 - 1.

(** The transaction context a function can read: [msg.sender],
    [block.timestamp], and the identifier the decryption oracle hands out if
    this transaction issues a decryption request. *)
Record Env := {
  msg_sender : address;
  block_timestamp : uint256;
  oracle_request_id : uint256
}.

(** ** The external platform

    The FHE library ([@fhevm/solidity/lib/FHE.sol]), [keccak256] over
    [abi.encode], and [address(this)] are not part of the repository.  They
    are taken as parameters; nothing is assumed about them here. *)
Class FHEVM := {
  euint32 : Type;
  asEuint32 : uint256 -> euint32;                   (* FHE.asEuint32 *)
  fhe_add : euint32 -> euint32 -> euint32;          (* FHE.add *)
  fhe_div : euint32 -> euint32 -> euint32;          (* FHE.div *)
  toUint32 : euint32 -> uint256;                    (* x.toUint32() *)
  toBytes32 : euint32 -> bytes32;                   (* FHE.toBytes32 *)
  isInitialized : euint32 -> bool;                  (* FHE.isInitialized *)
  checkSignatures : uint256 -> bytes -> bytes -> bool; (* FHE.checkSignatures *)
  keccak256_abi_encode : list bytes32 -> address -> bytes32;
  this : address                                    (* address(this) *)
}.

(** ** Errors *)

Inductive Error : Type :=
| NotOwner
| NotProvider
| PausedError
| CooldownActive
| BatchClosedOrNonExistent
| InvalidBatchState
| ReplayAttempt
| StateMismatch
| InvalidProof
| NotInitialized
| RequireFailed (reason : string)   (* require(cond, reason) *)
| Panic (code : Z)                  (* 0x11: arithmetic overflow *)
| AbiDecodeFailed.                  (* abi.decode on malformed data *)

#[global] Instance Error_eq_dec : EqDecision Error.
Proof. solve_decision. Defined.

(** ** Storage *)

Module Batch.
Record t := mk {
  id : uint256;
  open : bool;
  priceSum : uint256;
  count : uint256
}.
Definition set_id (v : uint256) (b : t) : t := mk v (open b) (priceSum b) (count b).
Definition set_open (v : bool) (b : t) : t := mk (id b) v (priceSum b) (count b).
Definition set_priceSum (v : uint256) (b : t) : t := mk (id b) (open b) v (count b).
Definition set_count (v : uint256) (b : t) : t := mk (id b) (open b) (priceSum b) v.
End Batch.

Record DecryptionContext := {
  batchId : uint256;
  stateHash : bytes32;
  processed : bool
}.

(** What [FHE.requestDecryption(cts, selector)] hands to the decryption
    oracle: the ciphertext handles to decrypt and the selector of the function
    to call back.  The contract has one callback. *)
Inductive Selector : Type := myCallback_selector.

Record DecryptionRequest := {
  ctsHandles : list bytes32;
  callbackSelector : Selector
}.

(** The value a [mapping(uint256 => DecryptionContext)] yields at a key that
    was never written. *)
Definition zero_context : DecryptionContext :=
  {| batchId := 0; stateHash := 0; processed := false |}.

Section Contract.
Context {P : FHEVM}.

Inductive Event : Type :=
| OwnershipTransferred (previousOwner newOwner : address)
| ProviderAdded (provider : address)
| ProviderRemoved (provider : address)
| CooldownSet (oldCooldown newCooldown : uint256)
| Paused (account : address)
| Unpaused (account : address)
| BatchOpened (batch : uint256)
| BatchClosed (batch priceSum count : uint256)
| PriceSubmitted (provider : address) (batch : uint256) (encryptedPrice : euint32)
| DecryptionRequested (requestId batch : uint256) (hash : bytes32)
| DecryptionCompleted (requestId batch finalPrice : uint256).

Record State := mkState {
  owner : address;
  isProvider : gmap Z bool;
  lastSubmissionTime : gmap Z Z;
  lastDecryptionRequestTime : gmap Z Z;
  cooldownSeconds : uint256;
  paused : bool;
  currentBatch : Batch.t;
  decryptionContexts : gmap Z DecryptionContext;
  log : list Event;                (* the events emitted so far *)
  oracleRequests : gmap Z DecryptionRequest
                                   (* what was sent to the oracle, by request id *)
}.

Definition set_owner (v : address) (s : State) : State :=
  mkState v (isProvider s) (lastSubmissionTime s) (lastDecryptionRequestTime s)
    (cooldownSeconds s) (paused s) (currentBatch s) (decryptionContexts s) (log s) (oracleRequests s).
Definition set_isProvider (v : gmap Z bool) (s : State) : State :=
  mkState (owner s) v (lastSubmissionTime s) (lastDecryptionRequestTime s)
    (cooldownSeconds s) (paused s) (currentBatch s) (decryptionContexts s) (log s) (oracleRequests s).
Definition set_lastSubmissionTime (v : gmap Z Z) (s : State) : State :=
  mkState (owner s) (isProvider s) v (lastDecryptionRequestTime s)
    (cooldownSeconds s) (paused s) (currentBatch s) (decryptionContexts s) (log s) (oracleRequests s).
Definition set_lastDecryptionRequestTime (v : gmap Z Z) (s : State) : State :=
  mkState (owner s) (isProvider s) (lastSubmissionTime s) v
    (cooldownSeconds s) (paused s) (currentBatch s) (decryptionContexts s) (log s) (oracleRequests s).
Definition set_cooldownSeconds (v : uint256) (s : State) : State :=
  mkState (owner s) (isProvider s) (lastSubmissionTime s) (lastDecryptionRequestTime s)
    v (paused s) (currentBatch s) (decryptionContexts s) (log s) (oracleRequests s).
Definition set_paused (v : bool) (s : State) : State :=
  mkState (owner s) (isProvider s) (lastSubmissionTime s) (lastDecryptionRequestTime s)
    (cooldownSeconds s) v (currentBatch s) (decryptionContexts s) (log s) (oracleRequests s).
Definition set_currentBatch (v : Batch.t) (s : State) : State :=
  mkState (owner s) (isProvider s) (lastSubmissionTime s) (lastDecryptionRequestTime s)
    (cooldownSeconds s) (paused s) v (decryptionContexts s) (log s) (oracleRequests s).
Definition set_decryptionContexts (v : gmap Z DecryptionContext) (s : State) : State :=
  mkState (owner s) (isProvider s) (lastSubmissionTime s) (lastDecryptionRequestTime s)
    (cooldownSeconds s) (paused s) (currentBatch s) v (log s) (oracleRequests s).
Definition set_log (v : list Event) (s : State) : State :=
  mkState (owner s) (isProvider s) (lastSubmissionTime s) (lastDecryptionRequestTime s)
    (cooldownSeconds s) (paused s) (currentBatch s) (decryptionContexts s) v (oracleRequests s).
Definition set_oracleRequests (v : gmap Z DecryptionRequest) (s : State) : State :=
  mkState (owner s) (isProvider s) (lastSubmissionTime s) (lastDecryptionRequestTime s)
    (cooldownSeconds s) (paused s) (currentBatch s) (decryptionContexts s) (log s) v.

(** Mapping reads, with the zero default of the value type. *)
Definition provider_of (s : State) (a : address) : bool :=
  default false (isProvider s !! a).
Definition submission_time_of (s : State) (a : address) : uint256 :=
  default 0 (lastSubmissionTime s !! a).
Definition request_time_of (s : State) (a : address) : uint256 :=
  default 0 (lastDecryptionRequestTime s !! a).
Definition context_of (s : State) (requestId : uint256) : DecryptionContext :=
  default zero_context (decryptionContexts s !! requestId).

(** Storage before the constructor runs: every slot is zero. *)
Definition zero_state : State :=
  mkState 0 ∅ ∅ ∅ 0 false (Batch.mk 0 false 0 0) ∅ [] ∅.

(** ** The execution monad

    A computation either finishes with a value and the storage it leaves, or
    reverts with an error.  A revert also carries the storage as it stood at
    the point of failure, so that one can tell which writes had already been
    made; [transact] below throws that storage away, as the EVM does. *)

Inductive Outcome (A : Type) : Type :=
| Done (a : A) (s : State)
| Reverted (e : Error) (s : State).
Arguments Done {A} a s.
Arguments Reverted {A} e s.

Definition M (A : Type) : Type := State -> Outcome A.

#[global] Instance M_ret : MRet M := fun A a s => Done a s.
#[global] Instance M_bind : MBind M := fun A B f m s =>
  match m s with
  | Done a s' => f a s'
  | Reverted e s' => Reverted e s'
  end.

Definition revert {A} (e : Error) : M A := fun s => Reverted e s.
Definition gets {A} (f : State -> A) : M A := fun s => Done (f s) s.
Definition modify (f : State -> State) : M unit := fun s => Done tt (f s).
Definition emit (ev : Event) : M unit :=
  modify (fun s => set_log (log s ++ [ev]) s).

(** [a + b] on [uint256] under checked arithmetic. *)
Definition checked_add (a b : uint256) : M uint256 :=
  if a + b <=? MAX_UINT256 then mret (a + b) else revert (Panic 17).

(** [abi.decode(data, (uint256))]: the first 32-byte word, big-endian;
    shorter data makes the decoder revert. *)
Definition word_of_bytes (bs : bytes) : Z :=
  fold_left (fun acc b => acc * 256 + Z.of_N (Byte.to_N b)) bs 0.

Definition abi_decode_uint256 (data : bytes) : M uint256 :=
  if Nat.ltb (length data) 32 then revert AbiDecodeFailed
  else mret (word_of_bytes (firstn 32 data)).

(** ** Modifiers *)

Definition onlyOwner (env : Env) (body : M unit) : M unit :=
  o ← gets owner;
  if negb (msg_sender env =? o) then revert NotOwner else body.

Definition onlyProvider (env : Env) (body : M unit) : M unit :=
  p ← gets (fun s => provider_of s (msg_sender env));
  if negb p then revert NotProvider else body.

Definition whenNotPaused (body : M unit) : M unit :=
  p ← gets paused;
  if (p : bool) then revert PausedError else body.

Definition checkSubmissionCooldown (env : Env) (body : M unit) : M unit :=
  last ← gets (fun s => submission_time_of s (msg_sender env));
  cd ← gets cooldownSeconds;
  ready ← checked_add last cd;
  if block_timestamp env <? ready then revert CooldownActive else body.

Definition checkDecryptionCooldown (env : Env) (body : M unit) : M unit :=
  last ← gets (fun s => request_time_of s (msg_sender env));
  cd ← gets cooldownSeconds;
  ready ← checked_add last cd;
  if block_timestamp env <? ready then revert CooldownActive else body.

(** ** Internal helpers *)

Definition _hashCiphertexts (cts : list bytes32) : bytes32 :=
  keccak256_abi_encode cts this.

Definition _initIfNeeded (x : euint32) : M unit :=
  if negb (isInitialized x) then revert NotInitialized else mret tt.

(** [FHE.requestDecryption(cts, selector)]: the handles and the selector go
    to the oracle, which answers with the identifier of the request. *)
Definition FHE_requestDecryption (env : Env) (cts : list bytes32) (callback : Selector)
  : M uint256 :=
  modify (fun s => set_oracleRequests
    (<[oracle_request_id env := {| ctsHandles := cts; callbackSelector := callback |}]>
       (oracleRequests s)) s);;
  mret (oracle_request_id env).

(** ** Constructor and administration *)

Definition constructor (env : Env) : M unit :=
  modify (set_owner (msg_sender env));;
  modify (set_cooldownSeconds 60);;
  modify (set_currentBatch (Batch.mk 0 false 0 0)).

Definition transferOwnership (env : Env) (newOwner : address) : M unit :=
  onlyOwner env (
    oldOwner ← gets owner;
    modify (set_owner newOwner);;
    emit (OwnershipTransferred oldOwner newOwner)).

Definition addProvider (env : Env) (provider : address) : M unit :=
  onlyOwner env (
    modify (fun s => set_isProvider (<[provider := true]> (isProvider s)) s);;
    emit (ProviderAdded provider)).

Definition removeProvider (env : Env) (provider : address) : M unit :=
  onlyOwner env (
    modify (fun s => set_isProvider (delete provider (isProvider s)) s);;
    emit (ProviderRemoved provider)).

Definition setCooldownSeconds (env : Env) (newCooldown : uint256) : M unit :=
  onlyOwner env (
    if negb (0 <? newCooldown) then revert (RequireFailed "Cooldown must be positive") else
    oldCooldown ← gets cooldownSeconds;
    modify (set_cooldownSeconds newCooldown);;
    emit (CooldownSet oldCooldown newCooldown)).

Definition pause (env : Env) : M unit :=
  onlyOwner env (
    modify (set_paused true);;
    emit (Paused (msg_sender env))).

Definition unpause (env : Env) : M unit :=
  onlyOwner env (
    modify (set_paused false);;
    emit (Unpaused (msg_sender env))).

(** ** Batch lifecycle *)

Definition openBatch (env : Env) : M unit :=
  onlyOwner env (whenNotPaused (
    b ← gets currentBatch;
    if Batch.open b then revert InvalidBatchState else
    next ← checked_add (Batch.id b) 1;
    modify (fun s => set_currentBatch (Batch.set_id next (currentBatch s)) s);;
    modify (fun s => set_currentBatch (Batch.set_open true (currentBatch s)) s);;
    modify (fun s => set_currentBatch (Batch.set_priceSum 0 (currentBatch s)) s);;
    modify (fun s => set_currentBatch (Batch.set_count 0 (currentBatch s)) s);;
    b' ← gets currentBatch;
    emit (BatchOpened (Batch.id b')))).

Definition closeBatch (env : Env) : M unit :=
  onlyOwner env (whenNotPaused (
    b ← gets currentBatch;
    if negb (Batch.open b) then revert BatchClosedOrNonExistent else
    modify (fun s => set_currentBatch (Batch.set_open false (currentBatch s)) s);;
    b' ← gets currentBatch;
    emit (BatchClosed (Batch.id b') (Batch.priceSum b') (Batch.count b')))).

(** ** Aggregation *)

Definition submitEncryptedPrice (env : Env) (encryptedPrice : euint32) : M unit :=
  onlyProvider env (whenNotPaused (checkSubmissionCooldown env (
    b ← gets currentBatch;
    if negb (Batch.open b) then revert BatchClosedOrNonExistent else
    _initIfNeeded encryptedPrice;;
    modify (fun s => set_lastSubmissionTime
      (<[msg_sender env := block_timestamp env]> (lastSubmissionTime s)) s);;
    modify (fun s => set_currentBatch (Batch.set_priceSum
      (toUint32 (fhe_add (asEuint32 (Batch.priceSum (currentBatch s))) encryptedPrice))
      (currentBatch s)) s);;
    c ← gets (fun s => Batch.count (currentBatch s));
    c' ← checked_add c 1;
    modify (fun s => set_currentBatch (Batch.set_count c' (currentBatch s)) s);;
    b' ← gets currentBatch;
    emit (PriceSubmitted (msg_sender env) (Batch.id b') encryptedPrice)))).

(** ** Decryption request and callback *)

(** The ciphertext handle both the request and the callback derive from the
    batch: [FHE.div(FHE.asEuint32(priceSum), FHE.asEuint32(count))]. *)
Definition average_handle (b : Batch.t) : euint32 :=
  fhe_div (asEuint32 (Batch.priceSum b)) (asEuint32 (Batch.count b)).

Definition requestPriceDecryption (env : Env) : M unit :=
  whenNotPaused (checkDecryptionCooldown env (
    b ← gets currentBatch;
    if Batch.open b || (Batch.count b =? 0) then revert InvalidBatchState else
    modify (fun s => set_lastDecryptionRequestTime
      (<[msg_sender env := block_timestamp env]> (lastDecryptionRequestTime s)) s);;
    b ← gets currentBatch;
    let encryptedTotalPrice := asEuint32 (Batch.priceSum b) in
    let encryptedCount := asEuint32 (Batch.count b) in
    _initIfNeeded encryptedTotalPrice;;
    _initIfNeeded encryptedCount;;
    let encryptedAvgPrice := fhe_div encryptedTotalPrice encryptedCount in
    let cts := [toBytes32 encryptedAvgPrice] in
    let stateHash := _hashCiphertexts cts in
    requestId ← FHE_requestDecryption env cts myCallback_selector;
    modify (fun s => set_decryptionContexts
      (<[requestId := {| batchId := Batch.id (currentBatch s);
                         stateHash := stateHash;
                         processed := false |}]> (decryptionContexts s)) s);;
    b' ← gets currentBatch;
    emit (DecryptionRequested requestId (Batch.id b') stateHash))).

Definition myCallback (requestId : uint256) (cleartexts proof : bytes) : M unit :=
  ctx ← gets (fun s => context_of s requestId);
  if processed ctx then revert ReplayAttempt else
  batch ← gets currentBatch;
  if negb (Batch.id batch =? batchId ctx) || Batch.open batch || (Batch.count batch =? 0)
  then revert InvalidBatchState else
  let encryptedTotalPrice := asEuint32 (Batch.priceSum batch) in
  let encryptedCount := asEuint32 (Batch.count batch) in
  _initIfNeeded encryptedTotalPrice;;
  _initIfNeeded encryptedCount;;
  let encryptedAvgPrice := fhe_div encryptedTotalPrice encryptedCount in
  let cts := [toBytes32 encryptedAvgPrice] in
  let currentHash := _hashCiphertexts cts in
  ctx' ← gets (fun s => context_of s requestId);
  if negb (currentHash =? stateHash ctx') then revert StateMismatch else
  if negb (checkSignatures requestId cleartexts proof) then revert InvalidProof else
  finalPrice ← abi_decode_uint256 cleartexts;
  modify (fun s => set_decryptionContexts
    (<[requestId := {| batchId := batchId (context_of s requestId);
                       stateHash := stateHash (context_of s requestId);
                       processed := true |}]> (decryptionContexts s)) s);;
  emit (DecryptionCompleted requestId (Batch.id batch) finalPrice).

(** ** Transactions and traces *)

Inductive Call : Type :=
| TransferOwnership (newOwner : address)
| AddProvider (provider : address)
| RemoveProvider (provider : address)
| SetCooldownSeconds (newCooldown : uint256)
| Pause
| Unpause
| OpenBatch
| CloseBatch
| SubmitEncryptedPrice (encryptedPrice : euint32)
| RequestPriceDecryption
| MyCallback (requestId : uint256) (cleartexts proof : bytes).

Definition body (env : Env) (c : Call) : M unit :=
  match c with
  | TransferOwnership newOwner => transferOwnership env newOwner
  | AddProvider provider => addProvider env provider
  | RemoveProvider provider => removeProvider env provider
  | SetCooldownSeconds newCooldown => setCooldownSeconds env newCooldown
  | Pause => pause env
  | Unpause => unpause env
  | OpenBatch => openBatch env
  | CloseBatch => closeBatch env
  | SubmitEncryptedPrice encryptedPrice => submitEncryptedPrice env encryptedPrice
  | RequestPriceDecryption => requestPriceDecryption env
  | MyCallback requestId cleartexts proof => myCallback requestId cleartexts proof
  end.

Inductive Status : Type :=
| Success
| Failure (e : Error).

(** One transaction: run the function; if it reverts, every storage write and
    every event of the call is undone. *)
Definition transact (env : Env) (c : Call) (s : State) : Status * State :=
  match body env c s with
  | Done _ s' => (Success, s')
  | Reverted e _ => (Failure e, s)
  end.

(** Storage where the function stopped, whether it finished or reverted:
    what the storage would be if reverts did not roll back. *)
Definition storage_at_exit (env : Env) (c : Call) (s : State) : State :=
  match body env c s with
  | Done _ s' => s'
  | Reverted _ s' => s'
  end.

(** A trace is a sequence of transactions, each with its own context. *)
Definition step (s : State) (tx : Env * Call) : State :=
  (transact tx.1 tx.2 s).2.

Definition run (tr : list (Env * Call)) (s : State) : State :=
  fold_left step tr s.

(** Deployment: the constructor runs on zeroed storage. *)
Definition deploy (env : Env) : State :=
  match constructor env zero_state with
  | Done _ s => s
  | Reverted _ _ => zero_state
  end.

(** The [DecryptionCompleted] events of the log, as
    [(requestId, batchId, finalPrice)]. *)
Definition completion_of (ev : Event) : option (uint256 * uint256 * uint256) :=
  match ev with
  | DecryptionCompleted requestId batch finalPrice => Some (requestId, batch, finalPrice)
  | _ => None
  end.

Definition completions (s : State) : list (uint256 * uint256 * uint256) :=
  omap completion_of (log s).

(** No transaction of the trace is a decryption request to which the oracle
    assigns the identifier [r]. *)
Definition never_issues (r : uint256) (tr : list (Env * Call)) : Prop :=
  Forall (fun tx => tx.2 = RequestPriceDecryption -> oracle_request_id tx.1 <> r) tr.

(** ** Notions the statements use *)

(** The hash the request stores and the callback recomputes. *)
Definition commitment (b : Batch.t) : bytes32 :=
  _hashCiphertexts [toBytes32 (average_handle b)].

(** The two failures a function can raise after it has already written to
    storage: the overflow of [count++] at the end of a submission, and
    [NotInitialized] in a request, which is tested after the timer write. *)
Definition late_failure (c : Call) (e : Error) : bool :=
  match c, e with
  | SubmitEncryptedPrice _, Panic _ => true
  | RequestPriceDecryption, NotInitialized => true
  | _, _ => false
  end.

(** What has to hold for [myCallback] to finalize. *)
Definition callback_accepts (s : State) (requestId : uint256) (cleartexts proof : bytes) : bool :=
  let ctx := context_of s requestId in
  let b := currentBatch s in
  negb (processed ctx)
  && (Batch.id b =? batchId ctx) && negb (Batch.open b) && negb (Batch.count b =? 0)
  && isInitialized (asEuint32 (Batch.priceSum b))
  && isInitialized (asEuint32 (Batch.count b))
  && (commitment b =? stateHash ctx)
  && checkSignatures requestId cleartexts proof
  && negb (Nat.ltb (length cleartexts) 32).

(** Batch identifiers start at 0 and only grow; as long as no batch was
    ever opened the record is closed and nothing is counted. *)
Definition batch_sound (s : State) : Prop :=
  0 <= Batch.id (currentBatch s) /\
  (Batch.id (currentBatch s) = 0 ->
   Batch.count (currentBatch s) = 0 /\ Batch.open (currentBatch s) = false).

(** No context was ever written under [r]. *)
Definition unrecorded (r : uint256) (s : State) : Prop :=
  decryptionContexts s !! r = None.

(** After a request for batch [b1] was recorded under [r]: the entry keeps
    [b1]'s identifier and commitment, and the batch record is either still
    [b1] or carries a larger identifier. *)
Definition bound_to (r : uint256) (b1 : Batch.t) (s : State) : Prop :=
  batchId (context_of s r) = Batch.id b1 /\
  stateHash (context_of s r) = commitment b1 /\
  (Batch.id b1 < Batch.id (currentBatch s) \/ currentBatch s = b1).

(** The functions that carry the [whenNotPaused] modifier. *)
Definition pause_gated (c : Call) : bool :=
  match c with
  | OpenBatch | CloseBatch | SubmitEncryptedPrice _ | RequestPriceDecryption => true
  | _ => false
  end.

(** What a pause-gated function answers while the contract is paused: its
    role check comes first. *)
Definition paused_answer (env : Env) (c : Call) (s : State) : Error :=
  match c with
  | OpenBatch | CloseBatch =>
      if msg_sender env =? owner s then PausedError else NotOwner
  | SubmitEncryptedPrice _ =>
      if provider_of s (msg_sender env) then PausedError else NotProvider
  | _ => PausedError
  end.

(** Every context points at a batch identifier that is not ahead of the
    batch record; one that points at the current identifier belongs to a
    closed batch and, if anything was counted, holds the commitment of the
    batch record as it stands. *)
Definition contexts_consistent (s : State) : Prop :=
  forall r,
    batchId (context_of s r) <= Batch.id (currentBatch s) /\
    (batchId (context_of s r) = Batch.id (currentBatch s) ->
     Batch.open (currentBatch s) = false /\
     (Batch.count (currentBatch s) <> 0 ->
      stateHash (context_of s r) = commitment (currentBatch s))).

Definition is_callback (c : Call) : bool :=
  match c with MyCallback _ _ _ => true | _ => false end.

(** The failure of a cooldown modifier: [CooldownActive], unless the checked
    addition [last + cooldownSeconds] itself overflows. *)
Definition cooldown_failure (last cd : uint256) : Error :=
  if last + cd <=? MAX_UINT256 then CooldownActive else Panic 17.

(** A run of submissions, every one of which succeeds. *)
Fixpoint submit_all (subs : list (Env * euint32)) (s : State) : option State :=
  match subs with
  | [] => Some s
  | (env, x) :: rest =>
      match transact env (SubmitEncryptedPrice x) s with
      | (Success, s') => submit_all rest s'
      | (Failure _, _) => None
      end
  end.

(** Whether such a run went through. *)
Definition succeeded (o : option State) : bool :=
  match o with Some _ => true | None => false end.

(** ** Further notions *)

(** The functions that carry the [onlyOwner] modifier. *)
Definition owner_only (c : Call) : bool :=
  match c with
  | TransferOwnership _ | AddProvider _ | RemoveProvider _ | SetCooldownSeconds _
  | Pause | Unpause | OpenBatch | CloseBatch => true
  | _ => false
  end.

Definition is_open_call (c : Call) : bool :=
  match c with OpenBatch => true | _ => false end.

Definition is_close_call (c : Call) : bool :=
  match c with CloseBatch => true | _ => false end.

Definition is_submit_call (c : Call) : bool :=
  match c with SubmitEncryptedPrice _ => true | _ => false end.

(** A transfer of the ownership to the address [a]. *)
Definition is_transfer_to (a : address) (c : Call) : bool :=
  match c with TransferOwnership newOwner => newOwner =? a | _ => false end.

Definition is_request_call (c : Call) : bool :=
  match c with RequestPriceDecryption => true | _ => false end.

Definition is_success (st : Status) : bool :=
  match st with Success => true | Failure _ => false end.

(** How many transactions of a trace are calls of the kind [f] that
    succeed, when the trace runs from [s]. *)
Fixpoint successes (f : Call -> bool) (tr : list (Env * Call)) (s : State) : Z :=
  match tr with
  | [] => 0
  | tx :: rest =>
      (if f tx.2 && is_success (transact tx.1 tx.2 s).1 then 1 else 0)
      + successes f rest (step s tx)
  end.

(** The submissions of a trace that succeed when the trace runs from [s],
    in their order, each with the context of its transaction. *)
Fixpoint accepted_submissions (tr : list (Env * Call)) (s : State)
  : list (Env * euint32) :=
  match tr with
  | [] => []
  | tx :: rest =>
      match tx.2, (transact tx.1 tx.2 s).1 with
      | SubmitEncryptedPrice x, Success =>
          (tx.1, x) :: accepted_submissions rest (step s tx)
      | _, _ => accepted_submissions rest (step s tx)
      end
  end.

(** Reading the event log from its start: the number of [PriceSubmitted]
    events since the last [BatchOpened]. *)
Definition tally_submission (acc : Z) (ev : Event) : Z :=
  match ev with
  | BatchOpened _ => 0
  | PriceSubmitted _ _ _ => acc + 1
  | _ => acc
  end.

Definition submissions_since_open (evs : list Event) : Z :=
  fold_left tally_submission evs 0.

(** The [(id, priceSum, count)] of the last [BatchClosed] event, unless a
    batch was opened after it. *)
Definition note_closing (acc : option (uint256 * uint256 * uint256)) (ev : Event)
  : option (uint256 * uint256 * uint256) :=
  match ev with
  | BatchOpened _ => None
  | BatchClosed batch priceSum count => Some (batch, priceSum, count)
  | _ => acc
  end.

Definition last_closing (evs : list Event) : option (uint256 * uint256 * uint256) :=
  fold_left note_closing evs None.

(** The event each function emits. *)
Definition event_matches (c : Call) (ev : Event) : bool :=
  match c, ev with
  | TransferOwnership _, OwnershipTransferred _ _ => true
  | AddProvider _, ProviderAdded _ => true
  | RemoveProvider _, ProviderRemoved _ => true
  | SetCooldownSeconds _, CooldownSet _ _ => true
  | Pause, Paused _ => true
  | Unpause, Unpaused _ => true
  | OpenBatch, BatchOpened _ => true
  | CloseBatch, BatchClosed _ _ _ => true
  | SubmitEncryptedPrice _, PriceSubmitted _ _ _ => true
  | RequestPriceDecryption, DecryptionRequested _ _ _ => true
  | MyCallback _ _ _, DecryptionCompleted _ _ _ => true
  | _, _ => false
  end.

(** What the event log tells about the batch record. *)
Definition closing_agrees (b : Batch.t) (closing : option (uint256 * uint256 * uint256))
  : Prop :=
  match closing with
  | Some c =>
      Batch.open b = false /\ c = (Batch.id b, Batch.priceSum b, Batch.count b)
  | None => Batch.open b = true \/ Batch.id b = 0
  end.

Definition log_agrees (s : State) : Prop :=
  Batch.count (currentBatch s) = submissions_since_open (log s) /\
  closing_agrees (currentBatch s) (last_closing (log s)).

(** The numbers the contract computes itself stay in [uint256]. *)
Definition in_range (s : State) : Prop :=
  0 <= Batch.id (currentBatch s) <= MAX_UINT256 /\
  0 <= Batch.count (currentBatch s) <= MAX_UINT256 /\
  0 < cooldownSeconds s.

End Contract.

Arguments Done {P A} a s.
Arguments Reverted {P A} e s.

(** ** The arithmetic of the ciphertext engine *)

(** Modelled from the spec: the arithmetic of the external ciphertext engine,
    which the repository only calls.  Sections 4.3, 4.4 and 6 of the
    specification describe [FHE.asEuint32] as [encode], [FHE.add] as
    [homomorphic_add], [FHE.div] as [homomorphic_divide], and the stored
    [priceSum] as the running aggregate itself; the contract's type
    [euint32] fixes the width at 32 bits.  [plain] is the value a handle
    encrypts. *)
Class Homomorphic `{P : FHEVM} (plain : euint32 -> Z) : Prop := {
  plain_asEuint32 : forall v, 0 <= v < 2 ^ 32 -> plain (asEuint32 v) = v;
  plain_add : forall a b, plain (fhe_add a b) = (plain a + plain b) mod 2 ^ 32;
  plain_div : forall a b,
    0 <= plain a < 2 ^ 32 -> 0 < plain b < 2 ^ 32 ->
    plain (fhe_div a b) = plain a / plain b;
  plain_stored : forall h,
    0 <= plain h < 2 ^ 32 -> plain (asEuint32 (toUint32 h)) = plain h
}.

(** The sum of the values a run of submissions encrypts. *)
Definition sum_plain `{P : FHEVM} (plain : euint32 -> Z) (subs : list (Env * euint32)) : Z :=
  fold_right (fun sub acc => plain sub.2 + acc) 0 subs.

(** Modelled from the spec: the decryption oracle, which the repository only
    calls, reveals the plaintext of the ciphertexts it is sent (sections 4.4
    and 6, glossary).  [cleartexts] answers the request [r] when its first
    word is the value encrypted by the one handle that the contract sent to
    the oracle under [r]. *)
Definition decrypts `{P : FHEVM} (plain : euint32 -> Z)
    (s : State) (r : uint256) (cleartexts : bytes) : Prop :=
  forall h,
    ctsHandles <$> oracleRequests s !! r = Some [toBytes32 h] ->
    word_of_bytes (take 32 cleartexts) = plain h.

(** ** A reference platform for running the contract

    Handles carry their plaintext: handle [0] is the uninitialized handle and
    handle [v + 1] holds the 32-bit value [v].  Arithmetic wraps modulo
    [2^32], as on [euint32].  Dividing by zero yields the largest value.  The
    hash packs the handles and the address into one number, and a decryption
    proof is accepted when it is the low byte of the request identifier
    followed by the cleartext bytes. *)
Module Plain.

Definition modulus : Z := 2 ^ 32.

Definition dec (h : Z) : Z := h - 1.
Definition enc (v : Z) : Z := v mod modulus + 1.

Definition add (a b : Z) : Z := enc (dec a + dec b).
Definition div (a b : Z) : Z :=
  if dec b =? 0 then enc (modulus - 1) else enc (dec a / dec b).

Definition hash (cts : list Z) (addr : Z) : Z :=
  fold_left (fun acc c => acc * 2 ^ 256 + c) cts addr.

Definition byte_of_Z (z : Z) : byte :=
  default x00 (Byte.of_N (Z.to_N (z mod 256))).

(** [abi.encode(uint256)]: 32 bytes, big-endian. *)
Fixpoint word_bytes (n : nat) (v : Z) : list byte :=
  match n with
  | O => []
  | S n' => word_bytes n' (v / 256) ++ [byte_of_Z v]
  end.
Definition abi_encode_uint256 (v : Z) : list byte := word_bytes 32 v.

Definition sign (requestId : Z) (cleartexts : list byte) : list byte :=
  byte_of_Z requestId :: cleartexts.

Fixpoint bytes_eqb (a b : list byte) : bool :=
  match a, b with
  | [], [] => true
  | x :: a', y :: b' => Byte.eqb x y && bytes_eqb a' b'
  | _, _ => false
  end.

Definition verify (requestId : Z) (cleartexts proof : list byte) : bool :=
  bytes_eqb proof (sign requestId cleartexts).

#[export] Instance platform : FHEVM := {|
  euint32 := Z;
  asEuint32 := enc;
  fhe_add := add;
  fhe_div := div;
  toUint32 := dec;
  toBytes32 := fun h => h;
  isInitialized := fun h => negb (h =? 0);
  checkSignatures := verify;
  keccak256_abi_encode := hash;
  this := 12648430
|}.

Definition at_time (sender time : Z) : Env :=
  {| msg_sender := sender; block_timestamp := time; oracle_request_id := 0 |}.
Definition at_time_req (sender time requestId : Z) : Env :=
  {| msg_sender := sender; block_timestamp := time; oracle_request_id := requestId |}.

End Plain.

(** ** Scenario states on the reference platform *)

Import Plain.

Definition t0 : Z := 1700000000.

(** Address 1 deploys and owns the contract; 2 and 3 become providers. *)
Definition genesis : State := deploy (at_time 1 t0).

Definition staffed : State :=
  run [ (at_time 1 t0, AddProvider 2); (at_time 1 t0, AddProvider 3) ] genesis.

Definition opened : State := (transact (at_time 1 t0) OpenBatch staffed).2.

(** Scenario B of the specification: submissions of 100 and 200, then close,
    request (the oracle assigns identifier 77) and callback with 150. *)
Definition scenario_B_subs : list (Env * Z) :=
  [ (at_time 2 (t0 + 1), enc 100); (at_time 3 (t0 + 2), enc 200) ].

Definition submitted : State := default opened (submit_all scenario_B_subs opened).

Definition closed : State := (transact (at_time 1 (t0 + 3)) CloseBatch submitted).2.

Definition request_env : Env := at_time_req 9 (t0 + 4) 77.

Definition requested : State := (transact request_env RequestPriceDecryption closed).2.

Definition answer : list byte := abi_encode_uint256 150.
Definition answer_proof : list byte := sign 77 answer.

Definition finalized : State :=
  (transact (at_time 5 (t0 + 9)) (MyCallback 77 answer answer_proof) requested).2.

(** A further batch cycle after the request: batch 2 with one submission. *)
Definition next_cycle : list (Env * Call) :=
  [ (at_time 1 (t0 + 100), OpenBatch);
    (at_time 2 (t0 + 101), SubmitEncryptedPrice (enc 500));
    (at_time 1 (t0 + 102), CloseBatch) ].

(** One more request for the same batch, to which the oracle assigns 78. *)
Definition later_request : list (Env * Call) :=
  [ (at_time_req 9 (t0 + 80) 78, RequestPriceDecryption) ].

(** A batch in which two providers submit [2^31] each. *)
Definition large_subs : list (Env * Z) :=
  [ (at_time 2 (t0 + 1), enc (2 ^ 31)); (at_time 3 (t0 + 2), enc (2 ^ 31)) ].

Definition large_submitted : State := default opened (submit_all large_subs opened).
Definition large_closed : State :=
  (transact (at_time 1 (t0 + 3)) CloseBatch large_submitted).2.
Definition large_requested : State :=
  (transact request_env RequestPriceDecryption large_closed).2.
Definition large_answer : list byte := abi_encode_uint256 0.
Definition large_finalized : State :=
  (transact (at_time 5 (t0 + 9)) (MyCallback 77 large_answer (sign 77 large_answer))
     large_requested).2.

(** Scenario B from deployment up to the request, as one trace. *)
Definition scenario_B_trace : list (Env * Call) :=
  [ (at_time 1 t0, AddProvider 2); (at_time 1 t0, AddProvider 3);
    (at_time 1 t0, OpenBatch);
    (at_time 2 (t0 + 1), SubmitEncryptedPrice (enc 100));
    (at_time 3 (t0 + 2), SubmitEncryptedPrice (enc 200));
    (at_time 1 (t0 + 3), CloseBatch);
    (request_env, RequestPriceDecryption) ].

(** The owner pauses the contract while request 77 is outstanding. *)
Definition paused_after_request : State :=
  (transact (at_time 1 (t0 + 5)) Pause requested).2.

(** Provider 2 submits at [t0 + 1]; the owner then sets the cooldown to the
    largest [uint256]. *)
Definition long_cooldown : State :=
  run [ (at_time 2 (t0 + 1), SubmitEncryptedPrice (enc 100));
        (at_time 1 (t0 + 1), SetCooldownSeconds MAX_UINT256) ] opened.

(** The owner sets a cooldown of two billion seconds, more than the current
    time [t0], before provider 2 ever submits. *)
Definition slow_market : State :=
  run [ (at_time 1 t0, SetCooldownSeconds 2000000000);
        (at_time 1 t0, AddProvider 2);
        (at_time 1 t0, OpenBatch) ] genesis.

(** What happens around request 77 before its callback: a second request,
    to which the oracle assigns 78, and a pause. *)
Definition interlude : list (Env * Call) :=
  later_request ++ [ (at_time 1 (t0 + 81), Pause) ].

(** A request for batch 2, after [next_cycle]; the oracle assigns 79. *)
Definition request_for_batch_2 : list (Env * Call) :=
  [ (at_time_req 9 (t0 + 300) 79, RequestPriceDecryption) ].

(** Requests 77 and 78 are both outstanding for batch 1. *)
Definition twice_requested : State := run later_request requested.

(** A busier run of batch 1.  While the batch is open: provider 2 submits
    100; address 4, which is no provider, is turned down; the owner pauses;
    provider 3 is turned down; the owner unpauses; provider 3 submits 200;
    and a second [openBatch] is turned down. *)
Definition busy_open_phase : list (Env * Call) :=
  [ (at_time 2 (t0 + 1), SubmitEncryptedPrice (enc 100));
    (at_time 4 (t0 + 1), SubmitEncryptedPrice (enc 999));
    (at_time 1 (t0 + 1), Pause);
    (at_time 3 (t0 + 2), SubmitEncryptedPrice (enc 50));
    (at_time 1 (t0 + 2), Unpause);
    (at_time 3 (t0 + 2), SubmitEncryptedPrice (enc 200));
    (at_time 1 (t0 + 2), OpenBatch) ].

Definition busy_closed : State :=
  (transact (at_time 1 (t0 + 3)) CloseBatch (run busy_open_phase opened)).2.

(** After the close: a late submission and a second [closeBatch] are turned
    down, and the owner shortens the cooldown. *)
Definition busy_closed_phase : list (Env * Call) :=
  [ (at_time 2 (t0 + 3), SubmitEncryptedPrice (enc 7));
    (at_time 1 (t0 + 3), CloseBatch);
    (at_time 1 (t0 + 3), SetCooldownSeconds 30) ].

Definition busy_requested : State :=
  (transact request_env RequestPriceDecryption (run busy_closed_phase busy_closed)).2.

(** Before the answer to request 77 arrives: a second request, to which the
    oracle assigns 78, a pause, and the callback for 78. *)
Definition busy_wait : list (Env * Call) :=
  [ (at_time_req 8 (t0 + 5) 78, RequestPriceDecryption);
    (at_time 1 (t0 + 6), Pause);
    (at_time 5 (t0 + 7), MyCallback 78 answer (sign 78 answer)) ].

Definition busy_finalized : State :=
  (transact (at_time 5 (t0 + 9)) (MyCallback 77 answer answer_proof)
     (run busy_wait busy_requested)).2.

(** The deployer hands the contract to address 7. *)
Definition handed_over : State :=
  (transact (at_time 1 t0) (TransferOwnership 7) genesis).2.

(** What follows: the new owner adds a provider, the previous owner tries to
    take the contract back, and the new owner hands it on to address 8. *)
Definition after_handover : list (Env * Call) :=
  [ (at_time 7 (t0 + 1), AddProvider 2);
    (at_time 1 (t0 + 2), TransferOwnership 1);
    (at_time 7 (t0 + 3), TransferOwnership 8) ].

(** * Properties *)

(** ** Proof automation *)

(** Unfolding a function down to the storage reads, tests and writes it is
    made of. *)
Ltac unfold_contract :=
  unfold transact, storage_at_exit, body,
    transferOwnership, addProvider, removeProvider, setCooldownSeconds,
    pause, unpause, openBatch, closeBatch, submitEncryptedPrice,
    requestPriceDecryption, myCallback,
    onlyOwner, onlyProvider, whenNotPaused,
    checkSubmissionCooldown, checkDecryptionCooldown,
    abi_decode_uint256, _initIfNeeded, FHE_requestDecryption, checked_add, emit,
    mbind, M_bind, mret, M_ret, gets, modify, revert in *.

Ltac split_cases :=
  repeat (simplify_eq/=; try done;
          match goal with
          | H : context [match ?x with _ => _ end] |- _ => destruct x eqn:?
          | |- context [match ?x with _ => _ end] => destruct x eqn:?
          end);
  simplify_eq/=; try done.

Ltac run_contract := unfold_contract; split_cases.

(** Boolean tests: break hypotheses into atomic equations and rewrite the
    goal with them. *)
Ltac break_bools :=
  repeat match goal with
  | H : _ && _ = true |- _ => apply andb_true_iff in H; destruct H
  | H : _ || _ = false |- _ => apply orb_false_iff in H; destruct H
  | H : negb _ = true |- _ => apply negb_true_iff in H
  | H : negb _ = false |- _ => apply negb_false_iff in H
  | H : _ || _ = true |- _ => apply orb_true_iff in H; destruct H
  | H : _ && _ = false |- _ => apply andb_false_iff in H; destruct H
  end.

Ltac use_bools :=
  break_bools;
  repeat match goal with
  | H : ?x = true |- context [?x] => rewrite H
  | H : ?x = false |- context [?x] => rewrite H
  end;
  simpl; try done; try congruence.

Section Properties.
Context {P : FHEVM}.

(** ** Reverts roll back *)

Lemma transact_success env c s :
  (transact env c s).1 = Success ->
  transact env c s = (Success, (transact env c s).2).
Proof. destruct (transact env c s) as [st s']; simpl. by intros ->. Qed.

Lemma transact_failure env c s e :
  (transact env c s).1 = Failure e ->
  transact env c s = (Failure e, s).
Proof.
  unfold transact. destruct (body env c s); simpl; [done|]. by intros [= ->].
Qed.

Lemma transact_outcome env c s e :
  (transact env c s).1 = Failure e ->
  transact env c s = (Failure e, (transact env c s).2).
Proof. destruct (transact env c s) as [st s']; simpl. by intros ->. Qed.

Lemma transact_failure_state env c s e s' :
  transact env c s = (Failure e, s') -> s' = s.
Proof. unfold transact. destruct (body env c s); naive_solver. Qed.

Lemma failure_before_writes env c s e s_at :
  body env c s = Reverted e s_at -> late_failure c e = false -> s_at = s.
Proof.
  intros Hb Hl. destruct c; run_contract.
Qed.

(** C9: a failing call of any function leaves the whole storage, event log
    included, exactly as it was.  Moreover the rollback is only ever needed
    for two late failures (the overflow of [count++] in a submission and
    [NotInitialized] in a request): every other failure is raised before the
    function has written anything. *)
Theorem C9_failure_is_atomic env c s e s' :
  transact env c s = (Failure e, s') ->
  s' = s /\ (late_failure c e = false -> storage_at_exit env c s = s).
Proof.
  intros Ht. split; [by eapply transact_failure_state|].
  intros Hl. unfold transact, storage_at_exit in *.
  destruct (body env c s) eqn:Hb; [done|].
  simplify_eq. by eapply failure_before_writes.
Qed.

(** ** Replay protection *)

Lemma myCallback_processed r ct pf s :
  processed (context_of s r) = true ->
  myCallback r ct pf s = Reverted ReplayAttempt s.
Proof. intros H. unfold myCallback, mbind, M_bind, gets; simpl. by rewrite H. Qed.

Lemma myCallback_marks env r ct pf s s' :
  transact env (MyCallback r ct pf) s = (Success, s') ->
  processed (context_of s' r) = true.
Proof.
  intros H. run_contract.
  unfold context_of; simpl. by rewrite lookup_insert_eq.
Qed.

Lemma processed_step r s tx :
  (tx.2 = RequestPriceDecryption -> oracle_request_id tx.1 <> r) ->
  processed (context_of s r) = true ->
  processed (context_of (step s tx) r) = true.
Proof.
  destruct tx as [env c]; simpl; intros Hfresh Hp. unfold step; simpl.
  destruct c; run_contract;
    unfold context_of in *; simpl in *;
    rewrite lookup_insert; case_decide; simplify_eq/=; try done.
  by destruct Hfresh.
Qed.

Lemma processed_run r tr s :
  never_issues r tr ->
  processed (context_of s r) = true ->
  processed (context_of (run tr s) r) = true.
Proof.
  unfold never_issues, run. intros Hf. revert s.
  induction Hf as [|tx tr Htx _ IH]; intros s Hp; simpl; [done|].
  apply IH. by apply processed_step.
Qed.

(** C2: once [myCallback] has succeeded for a request identifier, the entry
    is marked processed, and every later call with that identifier, after
    any further transactions in which the oracle does not hand out the same
    identifier again, fails with [ReplayAttempt], whatever the cleartexts
    and the proof. *)
Theorem C2_callback_succeeds_at_most_once env r ct pf s s' :
  transact env (MyCallback r ct pf) s = (Success, s') ->
  processed (context_of s' r) = true /\
  forall tr, never_issues r tr ->
  forall env' ct' pf',
    transact env' (MyCallback r ct' pf') (run tr s') = (Failure ReplayAttempt, run tr s').
Proof.
  intros Hok. pose proof (myCallback_marks _ _ _ _ _ _ Hok) as Hp.
  split; [done|]. intros tr Hfresh env' ct' pf'.
  unfold transact; simpl.
  by rewrite myCallback_processed by (by apply processed_run).
Qed.

(** ** The callback does not look at its caller *)

Lemma myCallback_success_iff env r ct pf s :
  (transact env (MyCallback r ct pf) s).1 = Success <-> callback_accepts s r ct pf = true.
Proof.
  unfold callback_accepts, commitment, average_handle. run_contract.
  all: split; intros Hacc; try done; use_bools.
Qed.

(** C6 (as the code has it): [myCallback] has no caller check.  Its outcome
    is the same for every caller, timestamp and transaction context, and it
    finalizes exactly when the entry is unprocessed, the batch matches and is
    closed and non-empty, the recomputed hash equals the stored one, the
    signatures check and the cleartexts decode. *)
Theorem C6_callback_ignores_caller env1 env2 r ct pf s :
  transact env1 (MyCallback r ct pf) s = transact env2 (MyCallback r ct pf) s /\
  ((transact env1 (MyCallback r ct pf) s).1 = Success <-> callback_accepts s r ct pf = true).
Proof.
  split; [reflexivity|]. apply myCallback_success_iff.
Qed.

(** ** Requests the contract never recorded *)

Lemma unrecorded_context r s : unrecorded r s -> context_of s r = zero_context.
Proof. unfold unrecorded, context_of. by intros ->. Qed.

Lemma myCallback_unrecorded r ct pf s :
  batch_sound s -> unrecorded r s ->
  myCallback r ct pf s = Reverted InvalidBatchState s.
Proof.
  intros [Hid Hcount] Hr%unrecorded_context.
  unfold myCallback, mbind, M_bind, gets, revert. rewrite Hr; simpl.
  destruct (Z.eqb_spec (Batch.id (currentBatch s)) 0) as [Hz|Hz]; simpl; [|done].
  destruct (Hcount Hz) as [-> _]; simpl. by rewrite orb_true_r.
Qed.

Lemma deploy_sound env : batch_sound (deploy env) /\ forall r, unrecorded r (deploy env).
Proof. split; [by split|]. intros r. apply lookup_empty. Qed.

Lemma batch_sound_step s tx : batch_sound s -> batch_sound (step s tx).
Proof.
  destruct tx as [env c]; simpl; intros [Hid Hcount]. unfold step; simpl.
  destruct c; run_contract; unfold batch_sound in *; simpl in *; break_bools;
    try (split; [lia | intros Hz; first [lia | by apply Hcount]]).
  split; [done|]. intros Hz. destruct (Hcount Hz) as [_ Hopen]. congruence.
Qed.

Lemma unrecorded_step r s tx :
  (tx.2 = RequestPriceDecryption -> oracle_request_id tx.1 <> r) ->
  batch_sound s -> unrecorded r s -> unrecorded r (step s tx).
Proof.
  destruct tx as [env c]; simpl; intros Hfresh Hs Hr. unfold step; simpl.
  destruct c as [| | | | | | | | | |r' ct pf].
  11: { (* a callback: the one for [r] itself cannot get through *)
    destruct (decide (r' = r)) as [->|Hne].
    - unfold transact; simpl. by rewrite myCallback_unrecorded.
    - run_contract. unfold unrecorded in *; simpl. by rewrite lookup_insert_ne. }
  all: run_contract; unfold unrecorded in *; simpl in *; try done.
  rewrite lookup_insert_ne; [done|]. by apply Hfresh.
Qed.

Lemma unrecorded_run r tr s :
  never_issues r tr ->
  batch_sound s -> unrecorded r s ->
  batch_sound (run tr s) /\ unrecorded r (run tr s).
Proof.
  unfold never_issues, run. intros Hf. revert s.
  induction Hf as [|tx tr Htx _ IH]; intros s Hs Hr; simpl; [done|].
  apply IH; [by apply batch_sound_step | by apply unrecorded_step].
Qed.

(** C4 (as the code has it): there is no lookup failure.  A request
    identifier for which no context was ever created reads as the zero
    context, passes the replay check, and, in every state the contract can
    reach from deployment, is rejected by the batch-state check with
    [InvalidBatchState]. *)
Theorem C4_unrecorded_request_is_InvalidBatchState deployer tr r :
  never_issues r tr ->
  context_of (run tr (deploy deployer)) r = zero_context /\
  forall env ct pf,
    transact env (MyCallback r ct pf) (run tr (deploy deployer))
    = (Failure InvalidBatchState, run tr (deploy deployer)).
Proof.
  intros Hfresh.
  destruct (unrecorded_run r tr (deploy deployer) Hfresh) as [Hs Hr];
    [apply deploy_sound..|].
  split; [by apply unrecorded_context|].
  intros env ct pf. unfold transact; simpl. by rewrite myCallback_unrecorded.
Qed.

(** ** Commitment binding *)

Lemma request_records env s s1 :
  transact env RequestPriceDecryption s = (Success, s1) ->
  currentBatch s1 = currentBatch s /\
  Batch.open (currentBatch s1) = false /\
  Batch.count (currentBatch s1) <> 0 /\
  context_of s1 (oracle_request_id env)
  = {| batchId := Batch.id (currentBatch s1);
       stateHash := commitment (currentBatch s1);
       processed := false |}.
Proof.
  intros H. run_contract. break_bools.
  repeat split; try done.
  - by apply Z.eqb_neq.
  - unfold context_of; simpl. by rewrite lookup_insert_eq.
Qed.

Lemma bound_step r b1 s tx :
  Batch.open b1 = false ->
  (tx.2 = RequestPriceDecryption -> oracle_request_id tx.1 <> r) ->
  bound_to r b1 s -> bound_to r b1 (step s tx).
Proof.
  destruct tx as [env c]; simpl; intros Hclosed Hfresh (Hctx & Hhash & Hbatch).
  unfold step; simpl.
  destruct c; run_contract; break_bools;
    unfold bound_to, context_of in *; simpl in *;
    rewrite ?lookup_insert; repeat case_decide; simplify_eq/=;
    try (split; [done|]; split; [done|]); try done;
    try (destruct Hbatch as [Hlt|Heq]; [left; lia|]; rewrite ?Heq in *; simpl in *;
         first [congruence | left; lia]).
  by destruct Hfresh.
Qed.

Lemma bound_run r b1 tr s :
  Batch.open b1 = false ->
  never_issues r tr ->
  bound_to r b1 s -> bound_to r b1 (run tr s).
Proof.
  unfold never_issues, run. intros Hclosed Hf. revert s.
  induction Hf as [|tx tr Htx _ IH]; intros s Hb; simpl; [done|].
  apply IH. by apply bound_step.
Qed.

Lemma myCallback_superseded r ct pf s :
  Batch.id (currentBatch s) <> batchId (context_of s r) ->
  myCallback r ct pf s
  = Reverted (if processed (context_of s r) then ReplayAttempt else InvalidBatchState) s.
Proof.
  intros Hne. unfold myCallback, mbind, M_bind, gets, revert.
  destruct (processed (context_of s r)); [done|].
  by apply Z.eqb_neq in Hne as ->.
Qed.

(** The hash gate in isolation: it answers [StateMismatch] when the gates
    before it pass and the stored hash is not the recomputed one. *)
Lemma myCallback_StateMismatch r ct pf s :
  processed (context_of s r) = false ->
  Batch.id (currentBatch s) = batchId (context_of s r) ->
  Batch.open (currentBatch s) = false ->
  Batch.count (currentBatch s) <> 0 ->
  isInitialized (asEuint32 (Batch.priceSum (currentBatch s))) = true ->
  isInitialized (asEuint32 (Batch.count (currentBatch s))) = true ->
  commitment (currentBatch s) <> stateHash (context_of s r) ->
  myCallback r ct pf s = Reverted StateMismatch s.
Proof.
  intros Hp Hid Hopen Hcount Hi1 Hi2 Hhash.
  unfold commitment, average_handle in Hhash.
  apply Z.eqb_eq in Hid. apply Z.eqb_neq in Hcount. apply Z.eqb_neq in Hhash.
  unfold myCallback, _initIfNeeded, mbind, M_bind, mret, M_ret, gets, revert.
  cbn beta. rewrite Hp, Hid, Hopen, Hcount; cbn.
  rewrite Hi1; cbn. rewrite Hi2; cbn. by rewrite Hhash.
Qed.

Lemma myCallback_not_StateMismatch env r ct pf s :
  (Batch.id (currentBatch s) = batchId (context_of s r) ->
   stateHash (context_of s r) = commitment (currentBatch s)) ->
  (transact env (MyCallback r ct pf) s).1 <> Failure StateMismatch.
Proof.
  intros Hsame Hfail. run_contract. break_bools.
  match goal with
  | H : (Batch.id _ =? _) = true |- _ => apply Z.eqb_eq in H; specialize (Hsame H)
  end.
  match goal with
  | H : (_ =? stateHash _) = false |- _ => apply Z.eqb_neq in H; apply H
  end.
  by rewrite Hsame.
Qed.

(** C1 (as the code has it): after a request is recorded, the batch's
    [priceSum] or [count] can only change through [openBatch], which
    advances the batch identifier.  So when either has changed by the time
    the callback runs, the callback fails at an earlier gate than the hash
    comparison: with [ReplayAttempt] if the request was already finalized,
    otherwise with [InvalidBatchState]; it never finalizes against the
    drifted state.  Drift or not, the callback for the request never
    answers [StateMismatch]. *)
Theorem C1_drift_is_rejected env s s1 tr :
  transact env RequestPriceDecryption s = (Success, s1) ->
  never_issues (oracle_request_id env) tr ->
  let r := oracle_request_id env in
  let s2 := run tr s1 in
  (Batch.priceSum (currentBatch s2) <> Batch.priceSum (currentBatch s1) \/
   Batch.count (currentBatch s2) <> Batch.count (currentBatch s1) ->
   forall env' ct pf,
     transact env' (MyCallback r ct pf) s2
     = (Failure (if processed (context_of s2 r)
                 then ReplayAttempt else InvalidBatchState), s2)) /\
  (forall env' ct pf,
     (transact env' (MyCallback r ct pf) s2).1 <> Failure StateMismatch).
Proof.
  intros Hreq Hfresh r s2.
  destruct (request_records _ _ _ Hreq) as (_ & Hclosed & _ & Hctx).
  assert (bound_to r (currentBatch s1) s2) as (Hk & Hh & Hb).
  { apply bound_run; [done..|]. subst r. unfold bound_to. rewrite Hctx; simpl. eauto. }
  split.
  - intros Hdrift env' ct pf.
    unfold transact; simpl. rewrite myCallback_superseded; [done|].
    rewrite Hk. destruct Hb as [Hlt|Heq]; [lia|].
    rewrite Heq in Hdrift. by destruct Hdrift.
  - intros env' ct pf. apply myCallback_not_StateMismatch.
    rewrite Hk, Hh. intros Hid. destruct Hb as [Hlt|Heq]; [lia|]. by rewrite Heq.
Qed.

(** *** [StateMismatch] cannot be reached from deployment *)

Lemma deploy_consistent env : contexts_consistent (deploy env).
Proof. intros r. unfold context_of; simpl. rewrite lookup_empty; simpl. done. Qed.

Lemma consistent_step s tx :
  contexts_consistent s -> contexts_consistent (step s tx).
Proof.
  destruct tx as [env c]; simpl; intros Hinv. unfold step; simpl.
  destruct c; run_contract; break_bools; intros r0;
    destruct (Hinv r0) as [Hle Heq];
    unfold context_of in *; simpl in *;
    rewrite ?lookup_insert; repeat case_decide; simplify_eq/=;
    try done;
    try (split; [lia|]; intros Hk; first [lia | destruct (Heq Hk); congruence]).
Qed.

Lemma sound_consistent_run tr s :
  batch_sound s -> contexts_consistent s ->
  batch_sound (run tr s) /\ contexts_consistent (run tr s).
Proof.
  revert s. induction tr as [|tx tr IH]; intros s Hs Hc; simpl; [done|].
  apply IH; [by apply batch_sound_step | by apply consistent_step].
Qed.

(** X22: in every state the contract reaches from deployment, whatever the
    oracle does, a context that passes the replay and batch-state gates
    holds exactly the hash the callback recomputes: [myCallback] never
    answers [StateMismatch]. *)
Theorem StateMismatch_unreachable deployer tr env r ct pf :
  (transact env (MyCallback r ct pf) (run tr (deploy deployer))).1
  <> Failure StateMismatch.
Proof.
  destruct (sound_consistent_run tr (deploy deployer)) as [_ Hc];
    [apply deploy_sound | apply deploy_consistent |].
  intros Hfail. pose proof Hfail as Hgates.
  revert Hfail. apply myCallback_not_StateMismatch. intros Hid.
  destruct (Hc r) as [_ Heq]. destruct (Heq (eq_sym Hid)) as [_ Hhash].
  apply Hhash. clear Hhash Heq Hc.
  run_contract. break_bools. by apply Z.eqb_neq.
Qed.

(** ** Pause *)

(** C7 (as the code has it): while paused, the four functions that carry
    [whenNotPaused] fail, with [PausedError] as soon as their role check
    passes, and whatever is called, the batch record, both cooldown timers
    and the [batchId] and [stateHash] of every decryption context stay as
    they are.  Only [myCallback], which is not pause-gated, can still touch
    the contexts (it sets [processed]); the owner-only administration is not
    pause-gated either. *)
Theorem C7_pause_gates env c s :
  paused s = true ->
  (pause_gated c = true -> transact env c s = (Failure (paused_answer env c s), s)) /\
  currentBatch (transact env c s).2 = currentBatch s /\
  lastSubmissionTime (transact env c s).2 = lastSubmissionTime s /\
  lastDecryptionRequestTime (transact env c s).2 = lastDecryptionRequestTime s /\
  (forall r, batchId (context_of (transact env c s).2 r) = batchId (context_of s r) /\
             stateHash (context_of (transact env c s).2 r) = stateHash (context_of s r)) /\
  (is_callback c = false ->
   decryptionContexts (transact env c s).2 = decryptionContexts s).
Proof.
  intros Hp. split.
  { intros Hg. destruct c; try done; run_contract; break_bools;
      try (apply Z.eqb_eq in H || apply Z.eqb_eq in Heqb); congruence. }
  destruct c; run_contract; repeat split; try done.
  all: unfold context_of; simpl; rewrite lookup_insert;
    case_decide; by simplify_eq.
Qed.

(** ** Order of the submission checks *)

(** C5 (as the code has it): [submitEncryptedPrice] runs its modifiers
    before its body, so the order is role, pause, cooldown, batch state.  A
    non-provider always gets [NotProvider]; a provider on a paused contract
    gets [PausedError]; a provider inside the cooldown window gets
    [CooldownActive] whether or not the batch is open; and
    [BatchClosedOrNonExistent] is reached only once the cooldown has
    elapsed. *)
Theorem C5_submission_check_order env x s :
  let a := msg_sender env in
  let ready := submission_time_of s a + cooldownSeconds s in
  (provider_of s a = false ->
   transact env (SubmitEncryptedPrice x) s = (Failure NotProvider, s)) /\
  (provider_of s a = true -> paused s = true ->
   transact env (SubmitEncryptedPrice x) s = (Failure PausedError, s)) /\
  (provider_of s a = true -> paused s = false ->
   ready <= MAX_UINT256 -> block_timestamp env < ready ->
   transact env (SubmitEncryptedPrice x) s = (Failure CooldownActive, s)) /\
  (provider_of s a = true -> paused s = false ->
   ready <= MAX_UINT256 -> ready <= block_timestamp env ->
   Batch.open (currentBatch s) = false ->
   transact env (SubmitEncryptedPrice x) s = (Failure BatchClosedOrNonExistent, s)).
Proof.
  intros a ready. subst a ready.
  repeat split; intros; run_contract; break_bools; try congruence; lia.
Qed.

(** ** Cooldown *)

Lemma submission_timer_set env x s s' :
  transact env (SubmitEncryptedPrice x) s = (Success, s') ->
  submission_time_of s' (msg_sender env) = block_timestamp env.
Proof.
  intros H. run_contract. unfold submission_time_of; simpl.
  by rewrite lookup_insert_eq.
Qed.

Lemma request_timer_set env s s' :
  transact env RequestPriceDecryption s = (Success, s') ->
  request_time_of s' (msg_sender env) = block_timestamp env.
Proof.
  intros H. run_contract. unfold request_time_of; simpl.
  by rewrite lookup_insert_eq.
Qed.

(** A timer of an address moves only when that address itself succeeds with
    the gated action. *)
Lemma timers_step a s tx :
  msg_sender tx.1 <> a ->
  submission_time_of (step s tx) a = submission_time_of s a /\
  request_time_of (step s tx) a = request_time_of s a.
Proof.
  destruct tx as [env c]; simpl; intros Hne. unfold step; simpl.
  destruct c; run_contract; split; try done;
    unfold submission_time_of, request_time_of; simpl;
    by rewrite lookup_insert_ne.
Qed.

(** C8 (as the code has it), for both gated actions.  A successful action
    stores the current time as the caller's timer.  With [last] the stored
    time of the caller's previous success: a call strictly before
    [last + cooldownSeconds] fails, with [CooldownActive] whenever that sum
    fits in [uint256] (the checked addition panics otherwise); a call at or
    after it succeeds when the other preconditions hold, and updates the
    timer. *)
Theorem C8_cooldown env x s :
  let a := msg_sender env in
  let now := block_timestamp env in
  paused s = false ->
  (* submissions *)
  (provider_of s a = true ->
   (now < submission_time_of s a + cooldownSeconds s ->
    transact env (SubmitEncryptedPrice x) s
    = (Failure (cooldown_failure (submission_time_of s a) (cooldownSeconds s)), s)) /\
   (submission_time_of s a + cooldownSeconds s <= now <= MAX_UINT256 ->
    Batch.open (currentBatch s) = true ->
    isInitialized x = true ->
    Batch.count (currentBatch s) + 1 <= MAX_UINT256 ->
    exists s', transact env (SubmitEncryptedPrice x) s = (Success, s') /\
               submission_time_of s' a = now)) /\
  (* decryption requests *)
  (now < request_time_of s a + cooldownSeconds s ->
   transact env RequestPriceDecryption s
   = (Failure (cooldown_failure (request_time_of s a) (cooldownSeconds s)), s)) /\
  (request_time_of s a + cooldownSeconds s <= now <= MAX_UINT256 ->
   Batch.open (currentBatch s) = false ->
   Batch.count (currentBatch s) <> 0 ->
   isInitialized (asEuint32 (Batch.priceSum (currentBatch s))) = true ->
   isInitialized (asEuint32 (Batch.count (currentBatch s))) = true ->
   exists s', transact env RequestPriceDecryption s = (Success, s') /\
              request_time_of s' a = now).
Proof.
  intros a now Hp. subst a now. unfold cooldown_failure.
  split; [intros Hprov; split|split].
  - intros Hlt. run_contract; break_bools; try congruence; lia.
  - intros Hready Hopen Hinit Hcount.
    destruct (transact env (SubmitEncryptedPrice x) s) as [[|e] s'] eqn:Ht.
    + exists s'. split; [done|]. by eapply submission_timer_set.
    + exfalso. run_contract; break_bools; try congruence; lia.
  - intros Hlt. run_contract; break_bools; try congruence; lia.
  - intros Hready Hopen Hcount Hi1 Hi2.
    destruct (transact env RequestPriceDecryption s) as [[|e] s'] eqn:Ht.
    + exists s'. split; [done|]. by eapply request_timer_set.
    + exfalso. run_contract; break_bools; try congruence; lia.
Qed.

(** ** Deployment *)

Lemma cooldown_check_fresh env s :
  submission_time_of s (msg_sender env) = 0 ->
  cooldownSeconds s <= MAX_UINT256 ->
  checkSubmissionCooldown env (mret tt) s
  = if block_timestamp env <? cooldownSeconds s
    then Reverted CooldownActive s else Done tt s.
Proof.
  intros Hz Hcd.
  unfold checkSubmissionCooldown, checked_add, mbind, M_bind, gets, mret, M_ret, revert.
  rewrite Hz. rewrite Z.add_0_l.
  destruct (Z.leb_spec (cooldownSeconds s) MAX_UINT256); [|lia].
  by destruct (block_timestamp env <? cooldownSeconds s).
Qed.

Lemma request_cooldown_check_fresh env s :
  request_time_of s (msg_sender env) = 0 ->
  cooldownSeconds s <= MAX_UINT256 ->
  checkDecryptionCooldown env (mret tt) s
  = if block_timestamp env <? cooldownSeconds s
    then Reverted CooldownActive s else Done tt s.
Proof.
  intros Hz Hcd.
  unfold checkDecryptionCooldown, checked_add, mbind, M_bind, gets, mret, M_ret, revert.
  rewrite Hz. rewrite Z.add_0_l.
  destruct (Z.leb_spec (cooldownSeconds s) MAX_UINT256); [|lia].
  by destruct (block_timestamp env <? cooldownSeconds s).
Qed.

(** C10 (as the code has it): after construction the owner is the deployer,
    [cooldownSeconds] is 60, the contract is not paused, nobody is a
    provider, the batch record is [{id: 0, open: false, priceSum: 0,
    count: 0}], and no timer, context or event exists.  An address whose
    timer is still 0 passes a cooldown check exactly when the current time
    is at least [cooldownSeconds]: right after deployment, when it is at
    least 60. *)
Theorem C10_initial_state deployer :
  deploy deployer
  = {| owner := msg_sender deployer;
       isProvider := ∅;
       lastSubmissionTime := ∅;
       lastDecryptionRequestTime := ∅;
       cooldownSeconds := 60;
       paused := false;
       currentBatch := Batch.mk 0 false 0 0;
       decryptionContexts := ∅;
       log := [];
       oracleRequests := ∅ |} /\
  (forall a, provider_of (deploy deployer) a = false /\
             submission_time_of (deploy deployer) a = 0 /\
             request_time_of (deploy deployer) a = 0) /\
  (forall env,
     checkSubmissionCooldown env (mret tt) (deploy deployer)
     = (if block_timestamp env <? 60
        then Reverted CooldownActive (deploy deployer) else Done tt (deploy deployer)) /\
     checkDecryptionCooldown env (mret tt) (deploy deployer)
     = (if block_timestamp env <? 60
        then Reverted CooldownActive (deploy deployer) else Done tt (deploy deployer))) /\
  (forall env s,
     cooldownSeconds s <= MAX_UINT256 ->
     (submission_time_of s (msg_sender env) = 0 ->
      checkSubmissionCooldown env (mret tt) s
      = if block_timestamp env <? cooldownSeconds s
        then Reverted CooldownActive s else Done tt s) /\
     (request_time_of s (msg_sender env) = 0 ->
      checkDecryptionCooldown env (mret tt) s
      = if block_timestamp env <? cooldownSeconds s
        then Reverted CooldownActive s else Done tt s)).
Proof.
  split; [done|]. split; [done|]. split.
  - intros env. split.
    + by rewrite cooldown_check_fresh.
    + by rewrite request_cooldown_check_fresh.
  - intros env s Hcd. split; intros Hz.
    + by apply cooldown_check_fresh.
    + by apply request_cooldown_check_fresh.
Qed.

(** ** Counting the calls that succeed *)

Lemma successes_nonneg f tr : forall s, 0 <= successes f tr s.
Proof.
  induction tr as [|tx tr IH]; intros s; simpl; [done|].
  specialize (IH (step s tx)).
  destruct (f tx.2 && is_success (transact tx.1 tx.2 s).1); lia.
Qed.

End Properties.

(** * Aggregation *)

Section Aggregation.
Context `{P : FHEVM} (plain : euint32 -> Z) `{!Homomorphic plain}.

Lemma openBatch_effect env s s' :
  transact env OpenBatch s = (Success, s') ->
  currentBatch s' = Batch.mk (Batch.id (currentBatch s) + 1) true 0 0.
Proof. intros H. by run_contract. Qed.

Lemma closeBatch_effect env s s' :
  transact env CloseBatch s = (Success, s') ->
  currentBatch s' = Batch.set_open false (currentBatch s).
Proof. intros H. by run_contract. Qed.

Lemma submit_effect env x s s' :
  transact env (SubmitEncryptedPrice x) s = (Success, s') ->
  currentBatch s'
  = Batch.mk (Batch.id (currentBatch s)) (Batch.open (currentBatch s))
      (toUint32 (fhe_add (asEuint32 (Batch.priceSum (currentBatch s))) x))
      (Batch.count (currentBatch s) + 1).
Proof. intros H. by run_contract. Qed.

Lemma callback_effect env r ct pf s s' :
  transact env (MyCallback r ct pf) s = (Success, s') ->
  log s' = log s ++ [DecryptionCompleted r (Batch.id (currentBatch s))
                       (word_of_bytes (take 32 ct))].
Proof. intros H. by run_contract. Qed.

(** What a request hands to the oracle: the handle of the quotient. *)
Lemma request_sends env s s1 :
  transact env RequestPriceDecryption s = (Success, s1) ->
  oracleRequests s1 !! oracle_request_id env
  = Some {| ctsHandles := [toBytes32 (average_handle (currentBatch s1))];
            callbackSelector := myCallback_selector |}.
Proof. intros H. run_contract. by rewrite lookup_insert_eq. Qed.

Lemma failure_keeps_state env c s :
  is_success (transact env c s).1 = false -> (transact env c s).2 = s.
Proof. unfold transact. by destruct (body env c s). Qed.

(** Only [openBatch], [closeBatch] and [submitEncryptedPrice] write the batch
    record. *)
Lemma batch_written_by_lifecycle env c s :
  is_open_call c = false -> is_close_call c = false -> is_submit_call c = false ->
  currentBatch (transact env c s).2 = currentBatch s.
Proof. intros Ho Hc Hs. destruct c; try done; run_contract. Qed.

Lemma open_rejects_openBatch env s :
  Batch.open (currentBatch s) = true ->
  is_success (transact env OpenBatch s).1 = false.
Proof. intros Hopen. run_contract; congruence. Qed.

Lemma closed_rejects env c s :
  Batch.open (currentBatch s) = false ->
  is_close_call c || is_submit_call c = true ->
  is_success (transact env c s).1 = false.
Proof. intros Hclosed Hc. destruct c; try done; run_contract; break_bools; congruence. Qed.

Lemma accepted_cons tx tr s :
  accepted_submissions (tx :: tr) s
  = accepted_submissions [tx] s ++ accepted_submissions tr (step s tx).
Proof. simpl. destruct tx.2; try done. by destruct (transact _ _ _).1. Qed.

Lemma sum_plain_app l1 l2 :
  sum_plain plain (l1 ++ l2) = sum_plain plain l1 + sum_plain plain l2.
Proof. unfold sum_plain. induction l1 as [|x l1 IH]; simpl; lia. Qed.

(** One transaction while the batch is open and is not closed: an accepted
    submission adds its value to the running aggregate, modulo [2^32], and
    advances [count]; every other transaction leaves the batch record as it
    is. *)
Lemma open_phase_step tx s acc :
  Batch.open (currentBatch s) = true ->
  is_close_call tx.2 && is_success (transact tx.1 tx.2 s).1 = false ->
  plain (asEuint32 (Batch.priceSum (currentBatch s))) = acc mod 2 ^ 32 ->
  Batch.open (currentBatch (step s tx)) = true /\
  Batch.id (currentBatch (step s tx)) = Batch.id (currentBatch s) /\
  Batch.count (currentBatch (step s tx))
  = Batch.count (currentBatch s) + Z.of_nat (length (accepted_submissions [tx] s)) /\
  plain (asEuint32 (Batch.priceSum (currentBatch (step s tx))))
  = (acc + sum_plain plain (accepted_submissions [tx] s)) mod 2 ^ 32.
Proof.
  destruct tx as [env c]; unfold step; simpl. intros Hopen Hnc Hacc.
  assert (forall s', currentBatch s' = currentBatch s ->
    Batch.open (currentBatch s') = true /\
    Batch.id (currentBatch s') = Batch.id (currentBatch s) /\
    Batch.count (currentBatch s') = Batch.count (currentBatch s) + Z.of_nat 0 /\
    plain (asEuint32 (Batch.priceSum (currentBatch s'))) = (acc + 0) mod 2 ^ 32)
    as Hkept.
  { intros s' ->. replace (acc + 0) with acc by lia. repeat split; try done. simpl; lia. }
  destruct c; simpl in *; try (by apply Hkept, batch_written_by_lifecycle).
  - apply Hkept. by rewrite failure_keeps_state by (by apply open_rejects_openBatch).
  - apply Hkept. by rewrite failure_keeps_state.
  - destruct (transact env (SubmitEncryptedPrice encryptedPrice) s)
      as [[|e] s'] eqn:Hsub; simpl.
    + apply submit_effect in Hsub. rewrite Hsub; simpl.
      repeat split; try done.
      rewrite plain_stored.
      * rewrite plain_add, Hacc, Zplus_mod_idemp_l. f_equal. lia.
      * rewrite plain_add. by apply Z.mod_pos_bound.
    + apply transact_failure_state in Hsub as ->. by apply Hkept.
Qed.

(** The running aggregate: while a batch stays open, the stored [priceSum]
    encrypts the sum of the accepted submissions modulo [2^32], [count]
    advances by their number, and nothing else moves the batch record,
    whatever other transactions come in between. *)
Lemma open_phase tr : forall s acc,
  Batch.open (currentBatch s) = true ->
  successes is_close_call tr s = 0 ->
  plain (asEuint32 (Batch.priceSum (currentBatch s))) = acc mod 2 ^ 32 ->
  Batch.open (currentBatch (run tr s)) = true /\
  Batch.id (currentBatch (run tr s)) = Batch.id (currentBatch s) /\
  Batch.count (currentBatch (run tr s))
  = Batch.count (currentBatch s) + Z.of_nat (length (accepted_submissions tr s)) /\
  plain (asEuint32 (Batch.priceSum (currentBatch (run tr s))))
  = (acc + sum_plain plain (accepted_submissions tr s)) mod 2 ^ 32.
Proof.
  induction tr as [|tx tr IH]; intros s acc Hopen Hnc Hacc.
  - unfold sum_plain; simpl. replace (acc + 0) with acc by lia.
    repeat split; try done. lia.
  - simpl in Hnc.
    pose proof (successes_nonneg is_close_call tr (step s tx)) as Hnn.
    destruct (is_close_call tx.2 && is_success (transact tx.1 tx.2 s).1) eqn:Hb; [lia|].
    destruct (open_phase_step tx s acc Hopen Hb Hacc) as (Hopen1 & Hid1 & Hcnt1 & Hsum1).
    destruct (IH (step s tx) (acc + sum_plain plain (accepted_submissions [tx] s)))
      as (Hopen2 & Hid2 & Hcnt2 & Hsum2); [done|lia|by rewrite Hsum1|].
    change (run (tx :: tr) s) with (run tr (step s tx)).
    rewrite accepted_cons, length_app, sum_plain_app.
    repeat split; [done|congruence|lia|].
    rewrite Hsum2. f_equal. lia.
Qed.

(** While the batch is closed and no [openBatch] succeeds, the batch record
    does not move. *)
Lemma closed_phase tr : forall s,
  Batch.open (currentBatch s) = false ->
  successes is_open_call tr s = 0 ->
  currentBatch (run tr s) = currentBatch s.
Proof.
  induction tr as [|[env c] tr IH]; intros s Hclosed Hno; simpl in *; [done|].
  pose proof (successes_nonneg is_open_call tr (step s (env, c))) as Hnn.
  destruct (is_open_call c && is_success (transact env c s).1) eqn:Hb; [lia|].
  assert (currentBatch (step s (env, c)) = currentBatch s) as Hsame.
  { unfold step; simpl. destruct c; simpl in *;
      try (by apply batch_written_by_lifecycle);
      by rewrite failure_keeps_state by (first [done | by apply closed_rejects]). }
  rewrite IH; [done|by rewrite Hsame|lia].
Qed.

(** C3 (under the engine's 32-bit arithmetic): a batch is opened; any
    transactions follow, none of them a successful [closeBatch], and [n] of
    them are accepted submissions; the batch is closed; any transactions
    follow, none of them a successful [openBatch]; a decryption request
    succeeds and the oracle assigns it [r]; any transactions follow, none of
    them a request to which the oracle assigns [r] again; and the callback
    for [r] succeeds with the cleartext the oracle decrypted from the handle
    that the request sent it.  Then [1 <= n], and the completion event
    carries the sum of the accepted values modulo [2^32], divided by [n]
    with integer division; when the sum fits in 32 bits this is the sum
    divided by [n]. *)
Theorem C3_revealed_average
    s env_o s_open tr1 env_c s_c tr2 env_r s_r tr3 env_k ct pf s_f :
  transact env_o OpenBatch s = (Success, s_open) ->
  successes is_close_call tr1 s_open = 0 ->
  transact env_c CloseBatch (run tr1 s_open) = (Success, s_c) ->
  successes is_open_call tr2 s_c = 0 ->
  transact env_r RequestPriceDecryption (run tr2 s_c) = (Success, s_r) ->
  never_issues (oracle_request_id env_r) tr3 ->
  transact env_k (MyCallback (oracle_request_id env_r) ct pf) (run tr3 s_r)
  = (Success, s_f) ->
  decrypts plain s_r (oracle_request_id env_r) ct ->
  Z.of_nat (length (accepted_submissions tr1 s_open)) < 2 ^ 32 ->
  1 <= Z.of_nat (length (accepted_submissions tr1 s_open)) /\
  log s_f = log (run tr3 s_r) ++
    [DecryptionCompleted (oracle_request_id env_r) (Batch.id (currentBatch s_open))
       ((sum_plain plain (accepted_submissions tr1 s_open) mod 2 ^ 32)
        / Z.of_nat (length (accepted_submissions tr1 s_open)))] /\
  (0 <= sum_plain plain (accepted_submissions tr1 s_open) < 2 ^ 32 ->
   log s_f = log (run tr3 s_r) ++
     [DecryptionCompleted (oracle_request_id env_r) (Batch.id (currentBatch s_open))
        (sum_plain plain (accepted_submissions tr1 s_open)
         / Z.of_nat (length (accepted_submissions tr1 s_open)))]).
Proof.
  intros Hopen Hnc Hclose Hno Hreq Hfresh Hcb Horacle Hn.
  set (subs := accepted_submissions tr1 s_open) in *.
  set (r := oracle_request_id env_r) in *.
  apply openBatch_effect in Hopen. apply closeBatch_effect in Hclose.
  destruct (open_phase tr1 s_open 0) as (_ & Hid & Hcnt & Hsum);
    [by rewrite Hopen|done|rewrite Hopen; simpl; by rewrite plain_asEuint32|].
  fold subs in Hcnt, Hsum. rewrite Z.add_0_l in Hsum.
  assert (Batch.count (currentBatch s_open) = 0) as Hzero by (by rewrite Hopen).
  rewrite Hzero, Z.add_0_l in Hcnt.
  pose proof (closed_phase tr2 s_c) as Hkept.
  rewrite Hclose in Hkept. specialize (Hkept eq_refl Hno).
  destruct (request_records _ _ _ Hreq) as (Hsame & Hclosed & Hcount & Hctx).
  pose proof (request_sends _ _ _ Hreq) as Hsent. fold r in Hsent, Hctx.
  assert (currentBatch s_r
          = Batch.mk (Batch.id (currentBatch s_open)) false
              (Batch.priceSum (currentBatch (run tr1 s_open)))
              (Z.of_nat (length subs))) as Hb.
  { rewrite Hsame, Hkept. unfold Batch.set_open. by rewrite Hid, Hcnt. }
  assert (currentBatch (run tr3 s_r) = currentBatch s_r) as Hstill.
  { assert (bound_to r (currentBatch s_r) (run tr3 s_r)) as (Hk & _ & Hbound).
    { apply bound_run; [done..|]. unfold bound_to. rewrite Hctx; simpl. eauto. }
    destruct Hbound as [Hlt|Heq]; [|done].
    assert ((transact env_k (MyCallback r ct pf) (run tr3 s_r)).1 = Success) as Hok
      by (by rewrite Hcb).
    apply myCallback_success_iff in Hok. unfold callback_accepts in Hok.
    break_bools.
    match goal with
    | H : (Batch.id _ =? _) = true |- _ => apply Z.eqb_eq in H; lia
    end. }
  rewrite Hb in Hcount; simpl in Hcount.
  assert (1 <= Z.of_nat (length subs)) as Hpos by lia.
  assert (word_of_bytes (take 32 ct)
          = (sum_plain plain subs mod 2 ^ 32) / Z.of_nat (length subs)) as Hprice.
  { rewrite (Horacle (average_handle (currentBatch s_r))) by (by rewrite Hsent).
    rewrite Hb. unfold average_handle; simpl.
    rewrite plain_div.
    - rewrite Hsum. by rewrite plain_asEuint32 by lia.
    - rewrite Hsum. by apply Z.mod_pos_bound.
    - rewrite plain_asEuint32 by lia. lia. }
  apply callback_effect in Hcb.
  split; [done|].
  rewrite Hcb, Hprice, Hstill, Hb; simpl. split; [done|].
  intros Hfits. by rewrite Z.mod_small.
Qed.

End Aggregation.

(** * Further properties of the contract *)

Section Further.
Context {P : FHEVM}.

(** ** Who may call what *)

Lemma stranger_is_NotOwner env c s :
  owner_only c = true -> msg_sender env <> owner s ->
  (transact env c s).1 = Failure NotOwner.
Proof.
  intros Ho Hne. apply Z.eqb_neq in Hne.
  destruct c; try done; unfold_contract; simpl; by rewrite Hne.
Qed.

(** X1: a call fails with [NotOwner] exactly when the function carries
    [onlyOwner] and the caller is not the owner; the check precedes every
    other one, and nothing is written. *)
Theorem NotOwner_iff env c s :
  (transact env c s).1 = Failure NotOwner <->
  owner_only c = true /\ msg_sender env <> owner s.
Proof.
  split.
  - intros Hf. destruct c; run_contract; break_bools; split; try done;
      by apply Z.eqb_neq.
  - intros [Ho Hne]. by apply stranger_is_NotOwner.
Qed.

(** X2: whoever is not the owner cannot change the owner, the provider
    registry, the cooldown or the pause flag, whatever is called. *)
Theorem administration_is_the_owners env c s :
  msg_sender env <> owner s ->
  owner (transact env c s).2 = owner s /\
  isProvider (transact env c s).2 = isProvider s /\
  cooldownSeconds (transact env c s).2 = cooldownSeconds s /\
  paused (transact env c s).2 = paused s.
Proof.
  intros Hne. apply Z.eqb_neq in Hne.
  destruct c; run_contract; break_bools; congruence.
Qed.

(** X3: a caller who is neither the owner nor a provider cannot change the
    batch record or any submission timer. *)
Theorem batch_is_closed_to_strangers env c s :
  msg_sender env <> owner s ->
  provider_of s (msg_sender env) = false ->
  currentBatch (transact env c s).2 = currentBatch s /\
  lastSubmissionTime (transact env c s).2 = lastSubmissionTime s.
Proof.
  intros Hne Hp. apply Z.eqb_neq in Hne.
  destruct c; run_contract; break_bools; congruence.
Qed.

Lemma owner_step old s tx :
  owner s <> old ->
  is_transfer_to old tx.2 && is_success (transact tx.1 tx.2 s).1 = false ->
  owner (step s tx) <> old.
Proof.
  destruct tx as [env c]; unfold step; simpl. intros Hne Hback.
  destruct c; run_contract; try done.
  rewrite andb_true_r in Hback. by apply Z.eqb_neq.
Qed.

Lemma owner_run old tr : forall s,
  owner s <> old ->
  successes (is_transfer_to old) tr s = 0 ->
  owner (run tr s) <> old.
Proof.
  induction tr as [|tx tr IH]; intros s Hne Hback; simpl in *; [done|].
  pose proof (successes_nonneg (is_transfer_to old) tr (step s tx)).
  destruct (is_transfer_to old tx.2 && is_success (transact tx.1 tx.2 s).1) eqn:Hb;
    [lia|].
  apply IH; [by apply owner_step | lia].
Qed.

(** X4: [transferOwnership] accepts every address, the zero address and the
    current owner included.  It changes the owner and nothing else.  The
    previous owner, if different, is locked out of every owner-only function
    at once, and stays locked out whatever is called afterwards, by whomever,
    for as long as no transfer of the ownership back to it succeeds. *)
Theorem transferOwnership_hands_over env newOwner s :
  msg_sender env = owner s ->
  transact env (TransferOwnership newOwner) s
  = (Success,
     set_log (log s ++ [OwnershipTransferred (owner s) newOwner]) (set_owner newOwner s)) /\
  (newOwner <> owner s ->
   forall tr,
     successes (is_transfer_to (owner s)) tr
       (transact env (TransferOwnership newOwner) s).2 = 0 ->
     owner (run tr (transact env (TransferOwnership newOwner) s).2) <> owner s /\
     forall env' c,
       msg_sender env' = owner s -> owner_only c = true ->
       transact env' c (run tr (transact env (TransferOwnership newOwner) s).2)
       = (Failure NotOwner, run tr (transact env (TransferOwnership newOwner) s).2)).
Proof.
  intros Ho.
  assert (transact env (TransferOwnership newOwner) s
          = (Success, set_log (log s ++ [OwnershipTransferred (owner s) newOwner])
                        (set_owner newOwner s))) as Ht.
  { apply Z.eqb_eq in Ho. unfold_contract; simpl. by rewrite Ho. }
  split; [done|]. intros Hne tr Hback.
  assert (owner (run tr (transact env (TransferOwnership newOwner) s).2) <> owner s)
    as Hlocked.
  { apply owner_run; [|done]. by rewrite Ht. }
  split; [done|]. intros env' c Hs Hc.
  apply transact_failure. apply stranger_is_NotOwner; [done|]. congruence.
Qed.

(** X5: [addProvider] and [removeProvider] set and clear the flag of one
    address and touch no other address; neither touches the submission
    timers, so a provider that is removed and added again is still bound by
    the cooldown of its last submission. *)
Theorem provider_registry env p s :
  msg_sender env = owner s ->
  (transact env (AddProvider p) s).1 = Success /\
  (transact env (RemoveProvider p) s).1 = Success /\
  provider_of (transact env (AddProvider p) s).2 p = true /\
  provider_of (transact env (RemoveProvider p) s).2 p = false /\
  (forall q, q <> p ->
     provider_of (transact env (AddProvider p) s).2 q = provider_of s q /\
     provider_of (transact env (RemoveProvider p) s).2 q = provider_of s q) /\
  lastSubmissionTime (transact env (AddProvider p) s).2 = lastSubmissionTime s /\
  lastSubmissionTime (transact env (RemoveProvider p) s).2 = lastSubmissionTime s.
Proof.
  intros Ho. apply Z.eqb_eq in Ho.
  unfold_contract; simpl. rewrite Ho; simpl.
  unfold provider_of; simpl.
  rewrite lookup_insert_eq, lookup_delete_eq. repeat split; try done.
  - by rewrite lookup_insert_ne.
  - by rewrite lookup_delete_ne.
Qed.

(** X6: [setCooldownSeconds] rejects 0 with the reason string of its
    [require], after the owner check; every positive value is stored as it
    is. *)
Theorem setCooldownSeconds_spec env n s :
  msg_sender env = owner s ->
  (n <= 0 ->
   transact env (SetCooldownSeconds n) s
   = (Failure (RequireFailed "Cooldown must be positive"), s)) /\
  (0 < n ->
   transact env (SetCooldownSeconds n) s
   = (Success, set_log (log s ++ [CooldownSet (cooldownSeconds s) n])
                 (set_cooldownSeconds n s))).
Proof.
  intros Ho. apply Z.eqb_eq in Ho.
  split; intros Hn; unfold_contract; simpl; rewrite Ho; simpl.
  - by destruct (Z.ltb_spec 0 n); [lia|].
  - by destruct (Z.ltb_spec 0 n); [|lia].
Qed.

(** X7: [pause] and [unpause] never fail for the owner, whatever the flag
    was: pausing a paused contract or unpausing a running one only appends
    the event. *)
Theorem pause_unpause_idempotent env s :
  msg_sender env = owner s ->
  transact env Pause s
  = (Success, set_log (log s ++ [Paused (msg_sender env)]) (set_paused true s)) /\
  transact env Unpause s
  = (Success, set_log (log s ++ [Unpaused (msg_sender env)]) (set_paused false s)).
Proof.
  intros Ho. apply Z.eqb_eq in Ho.
  split; unfold_contract; simpl; by rewrite Ho.
Qed.

(** ** Batch lifecycle *)

(** X8: for the owner of a running contract, [openBatch] and [closeBatch]
    alternate.  Opening an open batch is [InvalidBatchState]; opening a
    closed one advances the identifier by one and zeroes sum and count
    (and panics when the identifier is the largest [uint256]); closing a
    closed batch is [BatchClosedOrNonExistent]; closing an open one keeps
    identifier, sum and count. *)
Theorem batch_lifecycle env s :
  msg_sender env = owner s ->
  paused s = false ->
  (Batch.open (currentBatch s) = true ->
   transact env OpenBatch s = (Failure InvalidBatchState, s) /\
   (transact env CloseBatch s).1 = Success /\
   currentBatch (transact env CloseBatch s).2
   = Batch.mk (Batch.id (currentBatch s)) false
       (Batch.priceSum (currentBatch s)) (Batch.count (currentBatch s))) /\
  (Batch.open (currentBatch s) = false ->
   transact env CloseBatch s = (Failure BatchClosedOrNonExistent, s) /\
   (Batch.id (currentBatch s) + 1 <= MAX_UINT256 ->
    (transact env OpenBatch s).1 = Success /\
    currentBatch (transact env OpenBatch s).2
    = Batch.mk (Batch.id (currentBatch s) + 1) true 0 0) /\
   (MAX_UINT256 < Batch.id (currentBatch s) + 1 ->
    transact env OpenBatch s = (Failure (Panic 17), s))).
Proof.
  intros Ho Hp. apply Z.eqb_eq in Ho.
  split; intros Hopen; repeat split; try intros Hid;
    unfold_contract; simpl;
    repeat (first [rewrite Ho | rewrite Hp | rewrite Hopen]; simpl); try done.
  - by destruct (Z.leb_spec (Batch.id (currentBatch s) + 1) MAX_UINT256); [|lia].
  - by destruct (Z.leb_spec (Batch.id (currentBatch s) + 1) MAX_UINT256); [|lia].
  - by destruct (Z.leb_spec (Batch.id (currentBatch s) + 1) MAX_UINT256); [lia|].
Qed.

Lemma batch_id_step s tx :
  Batch.id (currentBatch (step s tx))
  = Batch.id (currentBatch s)
    + (if is_open_call tx.2 && is_success (transact tx.1 tx.2 s).1 then 1 else 0).
Proof.
  destruct tx as [env c]; unfold step; simpl.
  destruct c; run_contract; lia.
Qed.

Lemma batch_id_run tr : forall s,
  Batch.id (currentBatch (run tr s))
  = Batch.id (currentBatch s) + successes is_open_call tr s.
Proof.
  induction tr as [|tx tr IH]; intros s; simpl; [lia|].
  rewrite IH, batch_id_step. lia.
Qed.

(** X9: the batch identifier counts the calls of [openBatch] that
    succeeded: along any trace it grows by exactly their number, so it
    never decreases and never skips a value. *)
Theorem batch_id_counts_opens tr s :
  Batch.id (currentBatch (run tr s))
  = Batch.id (currentBatch s) + successes is_open_call tr s /\
  Batch.id (currentBatch s) <= Batch.id (currentBatch (run tr s)).
Proof.
  pose proof (batch_id_run tr s). pose proof (successes_nonneg is_open_call tr s).
  split; lia.
Qed.

Lemma fold_left_snoc {A B} (f : A -> B -> A) l x a :
  fold_left f (l ++ [x]) a = f (fold_left f l a) x.
Proof. by rewrite fold_left_app. Qed.

Lemma closing_agrees_open b b' closing :
  Batch.open b = true -> Batch.open b' = true ->
  closing_agrees b closing -> closing_agrees b' closing.
Proof.
  intros Hb Hb'. destruct closing as [c|]; simpl; [|by left].
  intros [? _]. congruence.
Qed.

Lemma log_agrees_step s tx : log_agrees s -> log_agrees (step s tx).
Proof.
  destruct tx as [env c]; unfold step; simpl. intros [Hcount Hclosing].
  unfold log_agrees, submissions_since_open, last_closing in *.
  destruct c; run_contract; break_bools;
    rewrite ?fold_left_snoc; simpl; try done;
    try (split; [lia || done|]); try done; try (by left).
  eapply closing_agrees_open; [| |exact Hclosing]; done.
Qed.

(** X10: in every state reached from deployment, [count] is the number of
    [PriceSubmitted] events logged since the last [BatchOpened], and while
    the batch is closed the last [BatchClosed] event carries exactly the
    identifier, sum and count that the decryption path will read. *)
Theorem log_agrees_with_batch deployer tr :
  Batch.count (currentBatch (run tr (deploy deployer)))
  = submissions_since_open (log (run tr (deploy deployer))) /\
  (Batch.open (currentBatch (run tr (deploy deployer))) = false ->
   Batch.id (currentBatch (run tr (deploy deployer))) <> 0 ->
   last_closing (log (run tr (deploy deployer)))
   = Some (Batch.id (currentBatch (run tr (deploy deployer))),
           Batch.priceSum (currentBatch (run tr (deploy deployer))),
           Batch.count (currentBatch (run tr (deploy deployer))))).
Proof.
  assert (forall s, log_agrees s -> log_agrees (run tr s)) as Hrun.
  { induction tr as [|tx tr IH]; intros s Hl; simpl; [done|].
    apply IH. by apply log_agrees_step. }
  destruct (Hrun (deploy deployer)) as [Hcount Hclosing].
  { split; [done|]. by right. }
  split; [done|]. intros Hopen Hid.
  destruct (last_closing _) as [closing|]; simpl in Hclosing.
  - by destruct Hclosing as [_ ->].
  - destruct Hclosing; congruence.
Qed.

(** ** Bounds *)

Lemma in_range_step s tx : in_range s -> in_range (step s tx).
Proof.
  destruct tx as [env c]; unfold step, in_range; simpl. intros (Hid & Hc & Hcd).
  destruct c; run_contract; break_bools; repeat split; try lia.
Qed.

(** X11: in every state reached from deployment the batch identifier and
    the count lie in [uint256] (their increments are checked), and
    [cooldownSeconds] is positive: the constructor sets 60 and
    [setCooldownSeconds] refuses 0. *)
Theorem counters_stay_in_range deployer tr :
  0 <= Batch.id (currentBatch (run tr (deploy deployer))) <= MAX_UINT256 /\
  0 <= Batch.count (currentBatch (run tr (deploy deployer))) <= MAX_UINT256 /\
  0 < cooldownSeconds (run tr (deploy deployer)).
Proof.
  assert (forall s, in_range s -> in_range (run tr s)) as Hrun.
  { induction tr as [|tx tr IH]; intros s Hs; simpl; [done|].
    apply IH. by apply in_range_step. }
  apply (Hrun (deploy deployer)). unfold in_range; simpl.
  unfold MAX_UINT256. lia.
Qed.

(** ** The life of a request *)

Lemma request_checks_handles env s s1 :
  transact env RequestPriceDecryption s = (Success, s1) ->
  isInitialized (asEuint32 (Batch.priceSum (currentBatch s1))) = true /\
  isInitialized (asEuint32 (Batch.count (currentBatch s1))) = true.
Proof. intros H. run_contract. by break_bools. Qed.

Lemma callback_accepts_success env r ct pf s :
  callback_accepts s r ct pf = true ->
  transact env (MyCallback r ct pf) s
  = (Success,
     set_log (log s ++ [DecryptionCompleted r (Batch.id (currentBatch s))
                          (word_of_bytes (take 32 ct))])
       (set_decryptionContexts
          (<[r := {| batchId := batchId (context_of s r);
                     stateHash := stateHash (context_of s r);
                     processed := true |}]> (decryptionContexts s)) s)).
Proof.
  unfold callback_accepts, commitment, average_handle. intros Hacc. break_bools.
  unfold_contract; simpl.
  repeat match goal with
         | H : ?x = true |- context [?x] => rewrite H; simpl
         | H : ?x = false |- context [?x] => rewrite H; simpl
         end.
  done.
Qed.

(** X12: a recorded request stays open for finalization as long as no new
    batch has been opened: whatever else happened in between (pause,
    further requests, other callbacks, changes of owner, providers or
    cooldown), a callback with accepted signatures and at least 32 bytes of
    cleartext succeeds, marks the request processed and emits
    [DecryptionCompleted] with the batch identifier and the first word of
    the cleartext. *)
Theorem request_stays_finalizable env s s1 tr ct pf :
  transact env RequestPriceDecryption s = (Success, s1) ->
  never_issues (oracle_request_id env) tr ->
  Batch.id (currentBatch (run tr s1)) = Batch.id (currentBatch s1) ->
  processed (context_of (run tr s1) (oracle_request_id env)) = false ->
  checkSignatures (oracle_request_id env) ct pf = true ->
  (32 <= length ct)%nat ->
  forall env',
    (transact env' (MyCallback (oracle_request_id env) ct pf) (run tr s1)).1 = Success /\
    processed (context_of
      (transact env' (MyCallback (oracle_request_id env) ct pf) (run tr s1)).2
      (oracle_request_id env)) = true /\
    completions (transact env' (MyCallback (oracle_request_id env) ct pf) (run tr s1)).2
    = completions (run tr s1)
      ++ [(oracle_request_id env, Batch.id (currentBatch s1), word_of_bytes (take 32 ct))].
Proof.
  intros Hreq Hfresh Hid Hp Hsig Hlen env'.
  destruct (request_records _ _ _ Hreq) as (_ & Hclosed & Hcount & Hctx).
  destruct (request_checks_handles _ _ _ Hreq) as [Hi1 Hi2].
  assert (bound_to (oracle_request_id env) (currentBatch s1) (run tr s1))
    as (Hk & Hh & Hb).
  { apply bound_run; [done..|]. unfold bound_to. rewrite Hctx; simpl. eauto. }
  destruct Hb as [Hlt|Heq]; [lia|].
  assert (callback_accepts (run tr s1) (oracle_request_id env) ct pf = true) as Hacc.
  { unfold callback_accepts. rewrite Hp, Hk, Hh, Heq, Hclosed, Hi1, Hi2, Hsig; simpl.
    rewrite !Z.eqb_refl; simpl.
    apply Z.eqb_neq in Hcount. rewrite Hcount; simpl.
    apply negb_true_iff, Nat.ltb_ge. lia. }
  rewrite (callback_accepts_success env' _ _ _ _ Hacc); simpl.
  split; [done|]. split.
  - unfold context_of; simpl. by rewrite lookup_insert_eq.
  - unfold completions; simpl. rewrite omap_app; simpl. by rewrite Heq.
Qed.

Lemma run_app tr tr' s : run (tr ++ tr') s = run tr' (run tr s).
Proof. apply fold_left_app. Qed.

(** X13: once a later batch has been opened, a request recorded for an
    earlier batch can never be finalized again, not even if the later batch
    ends up with the same sum and count: every callback for it, after any
    further transactions, fails with [InvalidBatchState] ([ReplayAttempt] if
    it had been finalized before). *)
Theorem superseded_request_is_stranded env s s1 tr tr' :
  transact env RequestPriceDecryption s = (Success, s1) ->
  never_issues (oracle_request_id env) (tr ++ tr') ->
  Batch.id (currentBatch (run tr s1)) <> Batch.id (currentBatch s1) ->
  forall env' ct pf,
    transact env' (MyCallback (oracle_request_id env) ct pf) (run (tr ++ tr') s1)
    = (Failure (if processed (context_of (run (tr ++ tr') s1) (oracle_request_id env))
                then ReplayAttempt else InvalidBatchState),
       run (tr ++ tr') s1).
Proof.
  intros Hreq Hfresh Hid env' ct pf.
  destruct (request_records _ _ _ Hreq) as (_ & Hclosed & _ & Hctx).
  assert (bound_to (oracle_request_id env) (currentBatch s1) (run (tr ++ tr') s1))
    as (Hk & _ & _).
  { apply bound_run; [done..|]. unfold bound_to. rewrite Hctx; simpl. eauto. }
  unfold transact; simpl. rewrite myCallback_superseded; [done|]. rewrite Hk.
  rewrite run_app, (batch_id_run tr' (run tr s1)).
  pose proof (batch_id_run tr s1) as Hgrow.
  pose proof (successes_nonneg is_open_call tr s1).
  pose proof (successes_nonneg is_open_call tr' (run tr s1)).
  lia.
Qed.

(** X14: finalization is per request, not per batch: a successful callback
    for one identifier leaves the callback for any other identifier exactly
    as acceptable as before, so two requests for the same closed batch are
    both finalized and [DecryptionCompleted] is emitted for each. *)
Theorem finalization_is_per_request env r r' ct pf ct' pf' s s' :
  r <> r' ->
  transact env (MyCallback r ct pf) s = (Success, s') ->
  callback_accepts s' r' ct' pf' = callback_accepts s r' ct' pf'.
Proof.
  intros Hne Hok. run_contract.
  unfold callback_accepts, context_of; simpl. by rewrite lookup_insert_ne.
Qed.

(** X15: [requestPriceDecryption] stores the new context over whatever is
    kept under the identifier the oracle returns, a finalized entry
    included: after the request the entry is unprocessed, and a callback
    for it with accepted signatures and at least 32 bytes of cleartext
    succeeds at once. *)
Theorem request_then_callback env s s1 ct pf :
  transact env RequestPriceDecryption s = (Success, s1) ->
  checkSignatures (oracle_request_id env) ct pf = true ->
  (32 <= length ct)%nat ->
  processed (context_of s1 (oracle_request_id env)) = false /\
  forall env',
    (transact env' (MyCallback (oracle_request_id env) ct pf) s1).1 = Success.
Proof.
  intros Hreq Hsig Hlen.
  destruct (request_records _ _ _ Hreq) as (_ & Hclosed & Hcount & Hctx).
  destruct (request_checks_handles _ _ _ Hreq) as [Hi1 Hi2].
  split; [by rewrite Hctx|]. intros env'.
  apply myCallback_success_iff. unfold callback_accepts.
  rewrite Hctx, Hclosed, Hi1, Hi2, Hsig; simpl. rewrite !Z.eqb_refl; simpl.
  apply Z.eqb_neq in Hcount. rewrite Hcount; simpl.
  apply negb_true_iff, Nat.ltb_ge. lia.
Qed.

(** ** The checks of the callback *)

(** X16: [myCallback] tests in this order: replay, batch state, handles,
    hash, signatures, and only then decodes; each test answers whatever the
    later ones would say.  A processed entry is a [ReplayAttempt].  Then a
    batch mismatch is [InvalidBatchState].  Then an uninitialized handle is
    [NotInitialized].  Then a recomputed hash that differs from the stored
    one is [StateMismatch], whether the signatures are accepted or not.
    Then rejected signatures are [InvalidProof], whatever the length of the
    cleartext, and accepted signatures over fewer than 32 bytes of cleartext
    make the decoder revert. *)
Theorem callback_check_order env r ct pf s :
  (processed (context_of s r) = true ->
   transact env (MyCallback r ct pf) s = (Failure ReplayAttempt, s)) /\
  (processed (context_of s r) = false ->
   Batch.id (currentBatch s) <> batchId (context_of s r)
   \/ Batch.open (currentBatch s) = true \/ Batch.count (currentBatch s) = 0 ->
   transact env (MyCallback r ct pf) s = (Failure InvalidBatchState, s)) /\
  (processed (context_of s r) = false ->
   Batch.id (currentBatch s) = batchId (context_of s r) ->
   Batch.open (currentBatch s) = false ->
   Batch.count (currentBatch s) <> 0 ->
   (isInitialized (asEuint32 (Batch.priceSum (currentBatch s))) = false
    \/ isInitialized (asEuint32 (Batch.count (currentBatch s))) = false ->
    transact env (MyCallback r ct pf) s = (Failure NotInitialized, s)) /\
   (isInitialized (asEuint32 (Batch.priceSum (currentBatch s))) = true ->
    isInitialized (asEuint32 (Batch.count (currentBatch s))) = true ->
    (commitment (currentBatch s) <> stateHash (context_of s r) ->
     transact env (MyCallback r ct pf) s = (Failure StateMismatch, s)) /\
    (commitment (currentBatch s) = stateHash (context_of s r) ->
     (checkSignatures r ct pf = false ->
      transact env (MyCallback r ct pf) s = (Failure InvalidProof, s)) /\
     (checkSignatures r ct pf = true -> (length ct < 32)%nat ->
      transact env (MyCallback r ct pf) s = (Failure AbiDecodeFailed, s))))).
Proof.
  split; [|split].
  - intros Hp. unfold transact; simpl. by rewrite myCallback_processed.
  - intros Hp Hbad. unfold_contract; simpl. rewrite Hp; simpl.
    destruct Hbad as [Hid|[Hopen|Hcount]].
    + apply Z.eqb_neq in Hid. by rewrite Hid.
    + rewrite Hopen. by rewrite orb_true_r.
    + rewrite Hcount. by rewrite orb_true_r.
  - intros Hp Hid Hopen Hcount. split.
    + intros Huninit. apply Z.eqb_eq in Hid. apply Z.eqb_neq in Hcount.
      unfold_contract; simpl. rewrite Hp; simpl. rewrite Hid, Hopen, Hcount; simpl.
      destruct Huninit as [Hi|Hi].
      * by rewrite Hi.
      * destruct (isInitialized (asEuint32 (Batch.priceSum (currentBatch s))));
          simpl; [|done]. by rewrite Hi.
    + intros Hi1 Hi2. split.
      * intros Hhash. unfold transact; simpl.
        by rewrite myCallback_StateMismatch.
      * intros Hhash. unfold commitment, average_handle in Hhash.
        apply Z.eqb_eq in Hid, Hhash. apply Z.eqb_neq in Hcount.
        split; [intros Hsig | intros Hsig Hlen; apply Nat.ltb_lt in Hlen];
          unfold_contract; simpl; rewrite Hp; simpl; rewrite Hid, Hopen, Hcount; simpl;
          rewrite Hi1; simpl; rewrite Hi2; simpl; rewrite Hhash; simpl;
          rewrite Hsig; simpl; [done|]. by rewrite Hlen.
Qed.

(** X17: a callback that was turned down for its proof or for malformed
    cleartext does not use the request up: the next callback for the same
    identifier with accepted signatures and at least 32 bytes of cleartext
    succeeds. *)
Theorem rejected_callback_can_be_retried env r ct pf s :
  (transact env (MyCallback r ct pf) s).1 = Failure InvalidProof
  \/ (transact env (MyCallback r ct pf) s).1 = Failure AbiDecodeFailed ->
  forall env' ct' pf',
    checkSignatures r ct' pf' = true -> (32 <= length ct')%nat ->
    (transact env' (MyCallback r ct' pf') s).1 = Success.
Proof.
  intros Hfail env' ct' pf' Hsig Hlen.
  apply myCallback_success_iff.
  assert (negb (length ct' <? 32)%nat = true) as Hl
    by (apply negb_true_iff, Nat.ltb_ge; lia).
  unfold callback_accepts, commitment, average_handle.
  destruct Hfail as [Hfail|Hfail]; run_contract; break_bools;
    repeat match goal with
           | H : ?x = true |- context [?x] => rewrite H; simpl
           | H : ?x = false |- context [?x] => rewrite H; simpl
           end; done.
Qed.

Lemma word_of_bytes_bound bs :
  0 <= word_of_bytes bs < 256 ^ Z.of_nat (length bs).
Proof.
  unfold word_of_bytes.
  assert (forall acc, 0 <= acc ->
            0 <= fold_left (fun acc b => acc * 256 + Z.of_N (Byte.to_N b)) bs acc
              < (acc + 1) * 256 ^ Z.of_nat (length bs)) as Hgen.
  { induction bs as [|b bs IH]; intros acc Hacc; simpl fold_left.
    - simpl. lia.
    - pose proof (Byte.to_N_bounded b) as Hb.
      specialize (IH (acc * 256 + Z.of_N (Byte.to_N b)) ltac:(lia)).
      split; [lia|]. eapply Z.lt_le_trans; [apply IH|].
      replace (Z.of_nat (length (b :: bs))) with (Z.succ (Z.of_nat (length bs)))
        by (simpl length; lia).
      rewrite Z.pow_succ_r by lia.
      assert (0 < 256 ^ Z.of_nat (length bs)) by (apply Z.pow_pos_nonneg; lia).
      nia. }
  specialize (Hgen 0 ltac:(lia)). lia.
Qed.

(** X18: a successful callback writes one thing, the [processed] flag of
    its own request, and appends one event; owner, registry, timers,
    cooldown, pause flag, batch record and every other context are as
    before.  The price it emits is the first 32-byte word of the cleartext
    read big-endian, a [uint256]; it is emitted, not stored. *)
Theorem callback_writes_only_processed env r ct pf s s' :
  transact env (MyCallback r ct pf) s = (Success, s') ->
  s' = set_log (log s ++ [DecryptionCompleted r (Batch.id (currentBatch s))
                            (word_of_bytes (take 32 ct))])
         (set_decryptionContexts
            (<[r := {| batchId := batchId (context_of s r);
                       stateHash := stateHash (context_of s r);
                       processed := true |}]> (decryptionContexts s)) s) /\
  (forall r', r' <> r -> context_of s' r' = context_of s r') /\
  0 <= word_of_bytes (take 32 ct) <= MAX_UINT256.
Proof.
  intros Hok.
  assert ((transact env (MyCallback r ct pf) s).1 = Success) as Hacc by by rewrite Hok.
  apply myCallback_success_iff in Hacc.
  assert ((32 <= length ct)%nat) as Hlen.
  { pose proof Hacc as H1. unfold callback_accepts in H1. break_bools.
    match goal with H : (_ <? _)%nat = false |- _ => apply Nat.ltb_ge in H end. lia. }
  rewrite (callback_accepts_success env _ _ _ _ Hacc) in Hok.
  injection Hok as <-.
  split; [done|]. split.
  - intros r' Hne. unfold context_of; simpl. by rewrite lookup_insert_ne.
  - pose proof (word_of_bytes_bound (take 32 ct)) as Hb.
    rewrite length_take in Hb. replace (32 `min` length ct)%nat with 32%nat in Hb by lia.
    unfold MAX_UINT256. change (256 ^ Z.of_nat 32) with (2 ^ 256) in Hb. lia.
Qed.

(** ** Timers and events *)

(** X19: a cooldown timer moves only for the caller, only through a
    successful call of its own gated function, and then to the current
    time.  Submitting does not start the request cooldown, requesting does
    not start the submission cooldown, and nobody can move another
    address's timer. *)
Theorem timers_move_only_for_the_caller env c s a :
  (submission_time_of (transact env c s).2 a <> submission_time_of s a ->
   a = msg_sender env /\ is_submit_call c = true /\
   (transact env c s).1 = Success /\
   submission_time_of (transact env c s).2 a = block_timestamp env) /\
  (request_time_of (transact env c s).2 a <> request_time_of s a ->
   a = msg_sender env /\ is_request_call c = true /\
   (transact env c s).1 = Success /\
   request_time_of (transact env c s).2 a = block_timestamp env).
Proof.
  destruct c; run_contract; split; intros Hne; try done;
    unfold submission_time_of, request_time_of in *; simpl in *;
    rewrite lookup_insert in Hne |- *; case_decide; simplify_eq/=; done.
Qed.

(** X20: every successful call appends exactly one event, the one that
    belongs to the function called; a failed call appends none. *)
Theorem one_event_per_success env c s :
  match (transact env c s).1 with
  | Success =>
      exists ev, log (transact env c s).2 = log s ++ [ev] /\ event_matches c ev = true
  | Failure _ => log (transact env c s).2 = log s
  end.
Proof.
  destruct c; run_contract; eexists; split; try reflexivity; done.
Qed.

(** X21: a decryption can only be requested for a closed batch with at
    least one submission: with the pause and cooldown gates passed, an open
    batch as well as an empty one is [InvalidBatchState], and the caller's
    request timer does not move. *)
Theorem request_needs_closed_nonempty_batch env s :
  paused s = false ->
  request_time_of s (msg_sender env) + cooldownSeconds s <= block_timestamp env ->
  block_timestamp env <= MAX_UINT256 ->
  Batch.open (currentBatch s) = true \/ Batch.count (currentBatch s) = 0 ->
  transact env RequestPriceDecryption s = (Failure InvalidBatchState, s).
Proof.
  intros Hp Hready Hmax Hbad.
  run_contract; break_bools; try lia.
  all: destruct Hbad as [Hopen|Hzero]; [congruence|].
  all: match goal with H : (_ =? 0) = false |- _ => apply Z.eqb_neq in H end; done.
Qed.

End Further.

(** * Scenarios on the reference platform *)

(** The reference platform is homomorphic: [dec] reads the plaintext. *)
Lemma plain_laws : Homomorphic dec.
Proof.
  split; simpl; unfold add, div, enc, dec, modulus;
    set (m := 2 ^ 32); assert (0 < m) as Hm by done; clearbody m.
  - intros v Hv. rewrite Z.add_simpl_r. by apply Z.mod_small.
  - intros a b. by rewrite Z.add_simpl_r.
  - intros a b Ha Hb.
    destruct (Z.eqb_spec (b - 1) 0) as [Hz|Hz]; [lia|].
    rewrite Z.add_simpl_r. apply Z.mod_small. split.
    + apply Z.div_pos; lia.
    + apply Z.div_lt_upper_bound; nia.
  - intros h Hh. rewrite Z.add_simpl_r. by apply Z.mod_small.
Qed.

(** Closed facts are checked by evaluation; only values whose type does not
    mention the platform are evaluated. *)
Ltac evaluate := vm_compute; reflexivity.
Ltac succeeds := apply transact_success; evaluate.
Ltac fails := apply transact_failure; evaluate.

Ltac no_such_request :=
  unfold never_issues; repeat constructor; simpl; intros; try discriminate; lia.

(** ** C1 *)

(** C1, counterexample: the request of scenario B is recorded for batch 1
    with sum 300.  A second batch cycle then leaves sum 500 in the batch
    record, and the callback for the request fails with
    [InvalidBatchState], not with [StateMismatch]. *)
Lemma C1_drift_fails_InvalidBatchState :
  transact request_env RequestPriceDecryption closed = (Success, requested) /\
  Batch.priceSum (currentBatch requested) = 300 /\
  Batch.priceSum (currentBatch (run next_cycle requested)) = 500 /\
  transact (at_time 5 (t0 + 200)) (MyCallback 77 answer answer_proof)
    (run next_cycle requested)
  = (Failure InvalidBatchState, run next_cycle requested) /\
  InvalidBatchState <> StateMismatch.
Proof.
  split; [succeeds|]. split; [evaluate|]. split; [evaluate|].
  split; [fails|discriminate].
Qed.

(** C1, witness: the same run, through the theorem. *)
Lemma C1_drift_is_rejected_witness :
  transact request_env RequestPriceDecryption closed = (Success, requested) /\
  never_issues 77 next_cycle /\
  Batch.priceSum (currentBatch (run next_cycle requested))
    <> Batch.priceSum (currentBatch requested) /\
  transact (at_time 5 (t0 + 200)) (MyCallback 77 answer answer_proof)
    (run next_cycle requested)
  = (Failure (if processed (context_of (run next_cycle requested) 77)
              then ReplayAttempt else InvalidBatchState),
     run next_cycle requested).
Proof.
  assert (transact request_env RequestPriceDecryption closed = (Success, requested))
    as Hreq by succeeds.
  assert (never_issues (oracle_request_id request_env) next_cycle)
    as Hfresh by no_such_request.
  assert (Batch.priceSum (currentBatch (run next_cycle requested))
          <> Batch.priceSum (currentBatch requested)) as Hdrift
    by (vm_compute; discriminate).
  split; [exact Hreq|]. split; [exact Hfresh|]. split; [exact Hdrift|].
  exact (proj1 (C1_drift_is_rejected request_env closed requested next_cycle Hreq Hfresh)
           (or_introl Hdrift) (at_time 5 (t0 + 200)) answer answer_proof).
Defined.

(** ** C2 *)

(** C2, witness: request 77 is finalized, another request is issued under
    78, and a second callback for 77 is a replay. *)
Lemma C2_callback_succeeds_at_most_once_witness :
  transact (at_time 5 (t0 + 9)) (MyCallback 77 answer answer_proof) requested
  = (Success, finalized) /\
  never_issues 77 later_request /\
  transact (at_time 6 (t0 + 90)) (MyCallback 77 answer answer_proof)
    (run later_request finalized)
  = (Failure ReplayAttempt, run later_request finalized).
Proof.
  assert (transact (at_time 5 (t0 + 9)) (MyCallback 77 answer answer_proof) requested
          = (Success, finalized)) as Hok by succeeds.
  assert (never_issues 77 later_request) as Hfresh by no_such_request.
  split; [exact Hok|]. split; [exact Hfresh|].
  exact (proj2 (C2_callback_succeeds_at_most_once _ _ _ _ _ _ Hok) _ Hfresh
           (at_time 6 (t0 + 90)) answer answer_proof).
Defined.

(** ** C3 *)

(** C3, counterexample: two providers submit [2^31] each.  Every step
    succeeds and the cleartext is the decryption of the handle the request
    sent to the oracle, yet the completion event carries 0, while the sum
    divided by the number of submissions is [2^31]. *)
Lemma C3_sum_wraps_at_32_bits :
  (transact (at_time 1 t0) OpenBatch staffed).1 = Success /\
  succeeded (submit_all large_subs opened) = true /\
  (transact (at_time 1 (t0 + 3)) CloseBatch large_submitted).1 = Success /\
  (transact request_env RequestPriceDecryption large_closed).1 = Success /\
  decrypts dec large_requested 77 large_answer /\
  (transact (at_time 5 (t0 + 9)) (MyCallback 77 large_answer (sign 77 large_answer))
     large_requested).1 = Success /\
  completions large_finalized = [(77, 1, 0)] /\
  sum_plain dec large_subs / Z.of_nat (length large_subs) = 2 ^ 31 /\
  0 <> 2 ^ 31.
Proof.
  assert (ctsHandles <$> oracleRequests large_requested !! 77 = Some [enc 0])
    as Hsent by evaluate.
  repeat split; try evaluate; [|discriminate].
  intros h Hh. rewrite Hsent in Hh. injection Hh as Hh.
  cbv [toBytes32 platform] in Hh. subst h. evaluate.
Qed.

(** C3, witness: the busier run of batch 1.  Of the four submissions sent
    while the batch is open the contract accepts two, of 100 and 200; the
    request is issued after further transactions and answered after a second
    request was finalized; the completion event carries [300 / 2]. *)
Lemma C3_revealed_average_witness :
  Homomorphic dec /\
  decrypts dec busy_requested 77 answer /\
  sum_plain dec (accepted_submissions busy_open_phase opened) = 300 /\
  length (accepted_submissions busy_open_phase opened) = 2%nat /\
  completions busy_finalized = [(78, 1, 150); (77, 1, 150)] /\
  log busy_finalized
  = log (run busy_wait busy_requested) ++ [DecryptionCompleted 77 1 (300 / 2)].
Proof.
  assert (decrypts dec busy_requested 77 answer) as Horacle.
  { assert (ctsHandles <$> oracleRequests busy_requested !! 77 = Some [enc 150])
      as Hsent by evaluate.
    intros h Hh. rewrite Hsent in Hh. injection Hh as Hh.
    cbv [toBytes32 platform] in Hh. subst h. evaluate. }
  assert (sum_plain dec (accepted_submissions busy_open_phase opened) = 300)
    as Hsum by evaluate.
  assert (Z.of_nat (length (accepted_submissions busy_open_phase opened)) = 2)
    as Hlen by evaluate.
  assert (Batch.id (currentBatch opened) = 1) as Hid by evaluate.
  split; [exact plain_laws|]. split; [exact Horacle|]. split; [exact Hsum|].
  split; [evaluate|]. split; [evaluate|].
  destruct (@C3_revealed_average platform dec plain_laws
              staffed (at_time 1 t0) opened busy_open_phase
              (at_time 1 (t0 + 3)) busy_closed busy_closed_phase
              request_env busy_requested busy_wait
              (at_time 5 (t0 + 9)) answer answer_proof busy_finalized)
    as (_ & _ & Hlog).
  - succeeds.
  - evaluate.
  - unfold busy_closed. succeeds.
  - evaluate.
  - unfold busy_requested. succeeds.
  - no_such_request.
  - unfold busy_finalized. succeeds.
  - exact Horacle.
  - rewrite Hlen. done.
  - rewrite Hsum, Hlen, Hid in Hlog. apply Hlog. lia.
Defined.

(** ** C4 *)

(** C4, counterexample: no context was ever stored under 78, nor under 5
    right after deployment; the callback is answered with the error of the
    batch-state check in both cases. *)
Lemma C4_unknown_request_has_no_own_error :
  decryptionContexts requested !! 78 = None /\
  transact (at_time 5 (t0 + 9)) (MyCallback 78 answer (sign 78 answer)) requested
  = (Failure InvalidBatchState, requested) /\
  decryptionContexts genesis !! 5 = None /\
  transact (at_time 5 (t0 + 9)) (MyCallback 5 [] []) genesis
  = (Failure InvalidBatchState, genesis).
Proof.
  split; [evaluate|]. split; [fails|]. split; [evaluate|fails].
Qed.

(** C4, witness: identifier 78 after scenario B. *)
Lemma C4_unrecorded_request_witness :
  never_issues 78 scenario_B_trace /\
  context_of (run scenario_B_trace (deploy (at_time 1 t0))) 78 = zero_context /\
  transact (at_time 5 (t0 + 9)) (MyCallback 78 answer (sign 78 answer))
    (run scenario_B_trace (deploy (at_time 1 t0)))
  = (Failure InvalidBatchState, run scenario_B_trace (deploy (at_time 1 t0))).
Proof.
  assert (never_issues 78 scenario_B_trace) as Hfresh by no_such_request.
  split; [exact Hfresh|].
  split.
  - exact (proj1 (C4_unrecorded_request_is_InvalidBatchState (at_time 1 t0)
                    scenario_B_trace 78 Hfresh)).
  - exact (proj2 (C4_unrecorded_request_is_InvalidBatchState (at_time 1 t0)
                    scenario_B_trace 78 Hfresh)
             (at_time 5 (t0 + 9)) answer (sign 78 answer)).
Defined.

(** ** C5 *)

(** C5, counterexample: provider 2 submitted at [t0 + 1]; the batch has
    since been closed.  At [t0 + 10] provider 2 faces both a closed batch
    and an active cooldown, and gets [CooldownActive]. *)
Lemma C5_cooldown_is_checked_before_batch_state :
  provider_of closed 2 = true /\
  paused closed = false /\
  Batch.open (currentBatch closed) = false /\
  t0 + 10 < submission_time_of closed 2 + cooldownSeconds closed /\
  transact (at_time 2 (t0 + 10)) (SubmitEncryptedPrice (enc 120)) closed
  = (Failure CooldownActive, closed) /\
  CooldownActive <> BatchClosedOrNonExistent.
Proof.
  split; [evaluate|]. split; [evaluate|]. split; [evaluate|].
  split; [vm_compute; reflexivity|]. split; [fails|discriminate].
Qed.

(** C5, witness: the same call, through the theorem. *)
Lemma C5_submission_check_order_witness :
  provider_of closed 2 = true /\
  paused closed = false /\
  submission_time_of closed 2 + cooldownSeconds closed <= MAX_UINT256 /\
  t0 + 10 < submission_time_of closed 2 + cooldownSeconds closed /\
  transact (at_time 2 (t0 + 10)) (SubmitEncryptedPrice (enc 120)) closed
  = (Failure CooldownActive, closed).
Proof.
  assert (provider_of closed 2 = true) as Hprov by evaluate.
  assert (paused closed = false) as Hp by evaluate.
  assert (submission_time_of closed 2 + cooldownSeconds closed <= MAX_UINT256)
    as Hfit by (vm_compute; discriminate).
  assert (t0 + 10 < submission_time_of closed 2 + cooldownSeconds closed)
    as Hlt by (vm_compute; reflexivity).
  split; [exact Hprov|]. split; [exact Hp|]. split; [exact Hfit|]. split; [exact Hlt|].
  exact (proj1 (proj2 (proj2
           (C5_submission_check_order (at_time 2 (t0 + 10)) (enc 120) closed)))
           Hprov Hp Hfit Hlt).
Defined.

(** ** C6 *)

(** C6, counterexample: addresses 5 and 6 are two different callers,
    neither of them known to the contract; the callback finalizes for
    either. *)
Lemma C6_any_caller_can_finalize :
  5 <> 6 /\
  (transact (at_time 5 (t0 + 9)) (MyCallback 77 answer answer_proof) requested).1
  = Success /\
  (transact (at_time 6 (t0 + 9)) (MyCallback 77 answer answer_proof) requested).1
  = Success /\
  processed (context_of requested 77) = false /\
  processed (context_of finalized 77) = true /\
  completions finalized = [(77, 1, 150)].
Proof. repeat split; try evaluate. discriminate. Qed.

(** ** C7 *)

(** C7, counterexample: while paused, the callback still succeeds and flips
    [processed], and the owner can still add a provider. *)
Lemma C7_callback_and_admin_run_while_paused :
  paused paused_after_request = true /\
  (transact (at_time 5 (t0 + 9)) (MyCallback 77 answer answer_proof)
     paused_after_request).1 = Success /\
  processed (context_of paused_after_request 77) = false /\
  processed (context_of
     (transact (at_time 5 (t0 + 9)) (MyCallback 77 answer answer_proof)
        paused_after_request).2 77) = true /\
  (transact (at_time 1 (t0 + 9)) (AddProvider 4) paused_after_request).1 = Success /\
  provider_of paused_after_request 4 = false /\
  provider_of (transact (at_time 1 (t0 + 9)) (AddProvider 4) paused_after_request).2 4
  = true.
Proof. repeat split; evaluate. Qed.

(** C7, witness: the owner cannot open a batch while paused. *)
Lemma C7_pause_gates_witness :
  paused paused_after_request = true /\
  transact (at_time 1 (t0 + 9)) OpenBatch paused_after_request
  = (Failure PausedError, paused_after_request).
Proof.
  assert (paused paused_after_request = true) as Hp by evaluate.
  split; [exact Hp|].
  exact (proj1 (C7_pause_gates (at_time 1 (t0 + 9)) OpenBatch paused_after_request Hp)
           eq_refl).
Defined.

(** ** C8 *)

(** C8, counterexample: one second after a successful submission, with the
    cooldown raised to the largest [uint256], provider 2 is well inside the
    cooldown window, and the call fails with the overflow panic of
    [last + cooldownSeconds] instead of [CooldownActive]. *)
Lemma C8_cooldown_sum_can_overflow :
  (transact (at_time 2 (t0 + 1)) (SubmitEncryptedPrice (enc 100)) opened).1 = Success /\
  submission_time_of long_cooldown 2 = t0 + 1 /\
  cooldownSeconds long_cooldown = MAX_UINT256 /\
  (t0 + 2) - (t0 + 1) < cooldownSeconds long_cooldown /\
  provider_of long_cooldown 2 = true /\
  paused long_cooldown = false /\
  transact (at_time 2 (t0 + 2)) (SubmitEncryptedPrice (enc 100)) long_cooldown
  = (Failure (Panic 17), long_cooldown) /\
  Panic 17 <> CooldownActive.
Proof.
  split; [evaluate|]. split; [evaluate|]. split; [evaluate|].
  split; [vm_compute; reflexivity|]. split; [evaluate|]. split; [evaluate|].
  split; [fails|discriminate].
Qed.

(** C8, witness: scenario C of the specification, provider 2 submits again
    ten seconds after a success. *)
Lemma C8_cooldown_witness :
  paused submitted = false /\
  provider_of submitted 2 = true /\
  submission_time_of submitted 2 = t0 + 1 /\
  t0 + 11 < submission_time_of submitted 2 + cooldownSeconds submitted /\
  transact (at_time 2 (t0 + 11)) (SubmitEncryptedPrice (enc 100)) submitted
  = (Failure CooldownActive, submitted).
Proof.
  assert (paused submitted = false) as Hp by evaluate.
  assert (provider_of submitted 2 = true) as Hprov by evaluate.
  assert (t0 + 11 < submission_time_of submitted 2 + cooldownSeconds submitted)
    as Hlt by (vm_compute; reflexivity).
  split; [exact Hp|]. split; [exact Hprov|]. split; [evaluate|]. split; [exact Hlt|].
  exact (proj1 (proj1 (C8_cooldown (at_time 2 (t0 + 11)) (enc 100) submitted Hp) Hprov)
           Hlt).
Defined.

(** ** C9 *)

(** C9, witness: the rejected submission of scenario C leaves the storage
    as it was. *)
Lemma C9_failure_is_atomic_witness :
  (transact (at_time 2 (t0 + 11)) (SubmitEncryptedPrice (enc 100)) submitted).1
  = Failure CooldownActive /\
  (transact (at_time 2 (t0 + 11)) (SubmitEncryptedPrice (enc 100)) submitted).2
  = submitted /\
  storage_at_exit (at_time 2 (t0 + 11)) (SubmitEncryptedPrice (enc 100)) submitted
  = submitted.
Proof.
  assert ((transact (at_time 2 (t0 + 11)) (SubmitEncryptedPrice (enc 100)) submitted).1
          = Failure CooldownActive) as Hfail by evaluate.
  split; [exact Hfail|].
  apply transact_outcome in Hfail.
  split.
  - exact (proj1 (C9_failure_is_atomic _ _ _ _ _ Hfail)).
  - exact (proj2 (C9_failure_is_atomic _ _ _ _ _ Hfail) eq_refl).
Defined.

(** ** C10 *)

(** C10, counterexample: with a cooldown that exceeds the current time, the
    very first submission of provider 2, whose timer is still 0, fails the
    cooldown check.  So does a first request at time 59 right after
    deployment. *)
Lemma C10_first_action_can_fail_cooldown :
  submission_time_of slow_market 2 = 0 /\
  lastSubmissionTime slow_market !! 2 = None /\
  provider_of slow_market 2 = true /\
  Batch.open (currentBatch slow_market) = true /\
  transact (at_time 2 (t0 + 1)) (SubmitEncryptedPrice (enc 100)) slow_market
  = (Failure CooldownActive, slow_market) /\
  request_time_of genesis 9 = 0 /\
  transact (at_time 9 59) RequestPriceDecryption genesis
  = (Failure CooldownActive, genesis).
Proof.
  split; [evaluate|]. split; [evaluate|]. split; [evaluate|]. split; [evaluate|].
  split; [fails|]. split; [evaluate|fails].
Qed.

(** ** Witnesses of the further properties *)

(** X2, witness: address 9 tries to pause. *)
Lemma administration_is_the_owners_witness :
  msg_sender (at_time 9 (t0 + 5)) <> owner requested /\
  owner (transact (at_time 9 (t0 + 5)) Pause requested).2 = owner requested /\
  isProvider (transact (at_time 9 (t0 + 5)) Pause requested).2 = isProvider requested /\
  cooldownSeconds (transact (at_time 9 (t0 + 5)) Pause requested).2
  = cooldownSeconds requested /\
  paused (transact (at_time 9 (t0 + 5)) Pause requested).2 = paused requested.
Proof.
  assert (msg_sender (at_time 9 (t0 + 5)) <> owner requested) as Hne
    by (vm_compute; discriminate).
  exact (conj Hne (administration_is_the_owners (at_time 9 (t0 + 5)) Pause requested Hne)).
Defined.

(** X3, witness: address 9 tries to submit into the open batch. *)
Lemma batch_is_closed_to_strangers_witness :
  msg_sender (at_time 9 (t0 + 1)) <> owner opened /\
  provider_of opened (msg_sender (at_time 9 (t0 + 1))) = false /\
  currentBatch (transact (at_time 9 (t0 + 1)) (SubmitEncryptedPrice (enc 5)) opened).2
  = currentBatch opened /\
  lastSubmissionTime (transact (at_time 9 (t0 + 1)) (SubmitEncryptedPrice (enc 5)) opened).2
  = lastSubmissionTime opened.
Proof.
  assert (msg_sender (at_time 9 (t0 + 1)) <> owner opened) as Hne
    by (vm_compute; discriminate).
  assert (provider_of opened (msg_sender (at_time 9 (t0 + 1))) = false) as Hp
    by evaluate.
  exact (conj Hne (conj Hp
    (batch_is_closed_to_strangers (at_time 9 (t0 + 1)) (SubmitEncryptedPrice (enc 5))
       opened Hne Hp))).
Defined.

(** X4, witness: the deployer hands the contract to address 7.  The new
    owner then adds a provider, the deployer's attempt to take the contract
    back fails, and the contract passes on to address 8; the deployer still
    cannot pause it. *)
Lemma transferOwnership_hands_over_witness :
  msg_sender (at_time 1 t0) = owner genesis /\
  7 <> owner genesis /\
  successes (is_transfer_to (owner genesis)) after_handover handed_over = 0 /\
  owner (run after_handover handed_over) = 8 /\
  transact (at_time 1 (t0 + 4)) Pause (run after_handover handed_over)
  = (Failure NotOwner, run after_handover handed_over).
Proof.
  assert (msg_sender (at_time 1 t0) = owner genesis) as Ho by evaluate.
  assert (7 <> owner genesis) as Hne by (vm_compute; discriminate).
  assert (successes (is_transfer_to (owner genesis)) after_handover handed_over = 0)
    as Hback by evaluate.
  split; [exact Ho|]. split; [exact Hne|]. split; [exact Hback|]. split; [evaluate|].
  exact (proj2 (proj2 (transferOwnership_hands_over (at_time 1 t0) 7 genesis Ho)
                  Hne after_handover Hback)
           (at_time 1 (t0 + 4)) Pause Ho eq_refl).
Defined.

(** X5, witness: the deployer adds and removes address 2. *)
Lemma provider_registry_witness :
  msg_sender (at_time 1 t0) = owner genesis /\
  provider_of (transact (at_time 1 t0) (AddProvider 2) genesis).2 2 = true /\
  provider_of (transact (at_time 1 t0) (RemoveProvider 2) genesis).2 2 = false.
Proof.
  assert (msg_sender (at_time 1 t0) = owner genesis) as Ho by evaluate.
  pose proof (provider_registry (at_time 1 t0) 2 genesis Ho)
    as (_ & _ & Hadd & Hrm & _).
  exact (conj Ho (conj Hadd Hrm)).
Defined.

(** X6, witness: the deployer tries a cooldown of 0. *)
Lemma setCooldownSeconds_spec_witness :
  msg_sender (at_time 1 t0) = owner genesis /\
  transact (at_time 1 t0) (SetCooldownSeconds 0) genesis
  = (Failure (RequireFailed "Cooldown must be positive"), genesis).
Proof.
  assert (msg_sender (at_time 1 t0) = owner genesis) as Ho by evaluate.
  split; [exact Ho|].
  exact (proj1 (setCooldownSeconds_spec (at_time 1 t0) 0 genesis Ho) (Z.le_refl 0)).
Defined.

(** X7, witness: the owner pauses the paused contract once more. *)
Lemma pause_unpause_idempotent_witness :
  msg_sender (at_time 1 (t0 + 6)) = owner paused_after_request /\
  paused paused_after_request = true /\
  transact (at_time 1 (t0 + 6)) Pause paused_after_request
  = (Success,
     set_log (log paused_after_request ++ [Paused (msg_sender (at_time 1 (t0 + 6)))])
       (set_paused true paused_after_request)).
Proof.
  assert (msg_sender (at_time 1 (t0 + 6)) = owner paused_after_request) as Ho
    by evaluate.
  split; [exact Ho|]. split; [evaluate|].
  exact (proj1 (pause_unpause_idempotent (at_time 1 (t0 + 6)) paused_after_request Ho)).
Defined.

(** X8, witness: the owner closes a batch that is not open. *)
Lemma batch_lifecycle_witness :
  msg_sender (at_time 1 t0) = owner staffed /\
  paused staffed = false /\
  Batch.open (currentBatch staffed) = false /\
  transact (at_time 1 t0) CloseBatch staffed = (Failure BatchClosedOrNonExistent, staffed).
Proof.
  assert (msg_sender (at_time 1 t0) = owner staffed) as Ho by evaluate.
  assert (paused staffed = false) as Hp by evaluate.
  assert (Batch.open (currentBatch staffed) = false) as Hc by evaluate.
  split; [exact Ho|]. split; [exact Hp|]. split; [exact Hc|].
  exact (proj1 (proj2 (batch_lifecycle (at_time 1 t0) staffed Ho Hp) Hc)).
Defined.

(** X12, witness: request 77 is finalized after a second request and a
    pause. *)
Lemma request_stays_finalizable_witness :
  transact request_env RequestPriceDecryption closed = (Success, requested) /\
  never_issues 77 interlude /\
  Batch.id (currentBatch (run interlude requested)) = Batch.id (currentBatch requested) /\
  processed (context_of (run interlude requested) 77) = false /\
  paused (run interlude requested) = true /\
  (transact (at_time 5 (t0 + 90)) (MyCallback 77 answer answer_proof)
     (run interlude requested)).1 = Success.
Proof.
  assert (transact request_env RequestPriceDecryption closed = (Success, requested))
    as Hreq by succeeds.
  assert (never_issues (oracle_request_id request_env) interlude)
    as Hfresh by no_such_request.
  assert (Batch.id (currentBatch (run interlude requested))
          = Batch.id (currentBatch requested)) as Hid by evaluate.
  assert (processed (context_of (run interlude requested)
                       (oracle_request_id request_env)) = false) as Hp by evaluate.
  assert (checkSignatures (oracle_request_id request_env) answer answer_proof = true)
    as Hsig by evaluate.
  assert ((32 <= length answer)%nat) as Hlen by (vm_compute; lia).
  split; [exact Hreq|]. split; [exact Hfresh|]. split; [exact Hid|].
  split; [exact Hp|]. split; [evaluate|].
  exact (proj1 (request_stays_finalizable request_env closed requested interlude
                  answer answer_proof Hreq Hfresh Hid Hp Hsig Hlen (at_time 5 (t0 + 90)))).
Defined.

(** X13, witness: after batch 2 was opened, request 77 fails for good. *)
Lemma superseded_request_is_stranded_witness :
  transact request_env RequestPriceDecryption closed = (Success, requested) /\
  never_issues 77 (next_cycle ++ request_for_batch_2) /\
  Batch.id (currentBatch (run next_cycle requested)) <> Batch.id (currentBatch requested) /\
  processed (context_of (run (next_cycle ++ request_for_batch_2) requested) 77) = false /\
  transact (at_time 5 (t0 + 400)) (MyCallback 77 answer answer_proof)
    (run (next_cycle ++ request_for_batch_2) requested)
  = (Failure (if processed (context_of (run (next_cycle ++ request_for_batch_2) requested)
                              (oracle_request_id request_env))
              then ReplayAttempt else InvalidBatchState),
     run (next_cycle ++ request_for_batch_2) requested).
Proof.
  assert (transact request_env RequestPriceDecryption closed = (Success, requested))
    as Hreq by succeeds.
  assert (never_issues (oracle_request_id request_env) (next_cycle ++ request_for_batch_2))
    as Hfresh by no_such_request.
  assert (Batch.id (currentBatch (run next_cycle requested))
          <> Batch.id (currentBatch requested)) as Hid by (vm_compute; discriminate).
  split; [exact Hreq|]. split; [exact Hfresh|]. split; [exact Hid|]. split; [evaluate|].
  exact (superseded_request_is_stranded request_env closed requested next_cycle
           request_for_batch_2 Hreq Hfresh Hid (at_time 5 (t0 + 400)) answer answer_proof).
Defined.

(** X14, witness: with 77 and 78 outstanding for batch 1, finalizing 77
    leaves 78 acceptable. *)
Lemma finalization_is_per_request_witness :
  77 <> 78 /\
  (transact (at_time 5 (t0 + 90)) (MyCallback 77 answer answer_proof) twice_requested).1
  = Success /\
  callback_accepts twice_requested 78 answer (sign 78 answer) = true /\
  callback_accepts
    (transact (at_time 5 (t0 + 90)) (MyCallback 77 answer answer_proof) twice_requested).2
    78 answer (sign 78 answer)
  = callback_accepts twice_requested 78 answer (sign 78 answer).
Proof.
  assert (77 <> 78) as Hne by discriminate.
  assert ((transact (at_time 5 (t0 + 90)) (MyCallback 77 answer answer_proof)
             twice_requested).1 = Success) as Hok by evaluate.
  split; [exact Hne|]. split; [exact Hok|]. split; [evaluate|].
  exact (finalization_is_per_request (at_time 5 (t0 + 90)) 77 78 answer answer_proof
           answer (sign 78 answer) twice_requested _ Hne
           (transact_success _ _ _ Hok)).
Defined.

(** X15, witness: the oracle hands out 77 a second time after 77 was
    finalized; the entry is unprocessed again and the callback succeeds a
    second time. *)
Lemma request_then_callback_witness :
  processed (context_of finalized 77) = true /\
  (transact (at_time_req 9 (t0 + 80) 77) RequestPriceDecryption finalized).1 = Success /\
  processed (context_of
    (transact (at_time_req 9 (t0 + 80) 77) RequestPriceDecryption finalized).2 77) = false /\
  (transact (at_time 5 (t0 + 90)) (MyCallback 77 answer answer_proof)
     (transact (at_time_req 9 (t0 + 80) 77) RequestPriceDecryption finalized).2).1
  = Success.
Proof.
  assert ((transact (at_time_req 9 (t0 + 80) 77) RequestPriceDecryption finalized).1
          = Success) as Hreq by evaluate.
  assert (checkSignatures 77 answer answer_proof = true) as Hsig by evaluate.
  assert ((32 <= length answer)%nat) as Hlen by (vm_compute; lia).
  pose proof (request_then_callback (at_time_req 9 (t0 + 80) 77) finalized _
                answer answer_proof (transact_success _ _ _ Hreq) Hsig Hlen)
    as [Hp Hcb].
  split; [evaluate|]. split; [exact Hreq|]. split; [exact Hp|].
  exact (Hcb (at_time 5 (t0 + 90))).
Defined.

(** X17, witness: an empty proof is rejected, the signed answer is then
    accepted. *)
Lemma rejected_callback_can_be_retried_witness :
  (transact (at_time 5 (t0 + 9)) (MyCallback 77 answer []) requested).1
  = Failure InvalidProof /\
  (transact (at_time 6 (t0 + 10)) (MyCallback 77 answer answer_proof) requested).1
  = Success.
Proof.
  assert ((transact (at_time 5 (t0 + 9)) (MyCallback 77 answer []) requested).1
          = Failure InvalidProof) as Hbad by evaluate.
  assert (checkSignatures 77 answer answer_proof = true) as Hsig by evaluate.
  assert ((32 <= length answer)%nat) as Hlen by (vm_compute; lia).
  split; [exact Hbad|].
  exact (rejected_callback_can_be_retried (at_time 5 (t0 + 9)) 77 answer [] requested
           (or_introl Hbad) (at_time 6 (t0 + 10)) answer answer_proof Hsig Hlen).
Defined.

(** X18, witness: the callback of scenario B. *)
Lemma callback_writes_only_processed_witness :
  transact (at_time 5 (t0 + 9)) (MyCallback 77 answer answer_proof) requested
  = (Success, finalized) /\
  currentBatch finalized = currentBatch requested /\
  context_of finalized 78 = context_of requested 78 /\
  0 <= word_of_bytes (take 32 answer) <= MAX_UINT256.
Proof.
  assert (transact (at_time 5 (t0 + 9)) (MyCallback 77 answer answer_proof) requested
          = (Success, finalized)) as Hok by succeeds.
  pose proof (callback_writes_only_processed _ _ _ _ _ _ Hok) as (Hs & Hother & Hrange).
  split; [exact Hok|]. split; [evaluate|]. split; [|exact Hrange].
  apply Hother. discriminate.
Defined.

(** X21, witness: scenario D of the specification, a request while the
    batch is still open. *)
Lemma request_needs_closed_nonempty_batch_witness :
  paused submitted = false /\
  Batch.open (currentBatch submitted) = true /\
  transact (at_time 9 (t0 + 3)) RequestPriceDecryption submitted
  = (Failure InvalidBatchState, submitted).
Proof.
  assert (paused submitted = false) as Hp by evaluate.
  assert (Batch.open (currentBatch submitted) = true) as Hopen by evaluate.
  split; [exact Hp|]. split; [exact Hopen|].
  apply (request_needs_closed_nonempty_batch (at_time 9 (t0 + 3)) submitted Hp).
  - vm_compute. discriminate.
  - vm_compute. discriminate.
  - by left.
Defined.
